(** * CountingNN.main: the [Trainer] class of ElectronCounting

    A shallow embedding of [src/CountingNN/main.py].  Python integers are [Z],
    [len(...)] is a [nat], exceptions are the constructors of [exn], and a
    method is a computation in a state-and-exception monad over the trainer
    object and the outside world (generator state, console, files).  What the
    module imports (torch, numpy, scikit-learn, [CountingNN.FCN],
    [CountingNN.utils]) is the interface [Backend]. *)

From stdpp Require Import base numbers list strings gmap.

Local Open Scope string_scope.
Local Open Scope Z_scope.

(** ** Exceptions and results *)

Inductive exn :=
| TypeError
| ValueError
| NotImplementedError
| AttributeError
| UnboundLocalError
| AssertionError
| IndexError
| ZeroDivisionError
| OverflowError
| RuntimeError.

Inductive result (A : Type) :=
| Ok (a : A)
| Raise (e : exn).
Arguments Ok {A} a.
Arguments Raise {A} e.

#[global] Instance exn_eq_dec : EqDecision exn.
Proof. solve_decision. Defined.

#[global] Instance result_ret : MRet result := λ A x, Ok x.
#[global] Instance result_bind : MBind result :=
  λ A B f m, match m with Ok x => f x | Raise e => Raise e end.

Definition is_Ok {A} (r : result A) : Prop :=
  match r with Ok _ => True | Raise _ => False end.

(** ** Tensors as the code indexes them

    A data array has shape (sample, channel, height, width): a list of
    samples, each a list of channel planes.  A parameter snapshot
    ([state_dict()]) is an ordered mapping from names to parameter tensors. *)

Inductive repr := NumPy | Torch.
Inductive dtype := Float | Long | Native.

Section Arrays.
Context {Plane : Type}.

Definition Sample := list Plane.

Record Array := mkArray {
  a_repr : repr;
  a_dtype : dtype;
  a_data : list Sample
}.

Definition len (a : Array) : nat := length (a_data a).

(** [x[i]] on the leading axis, with Python's negative indices, for an
    index that fits a 64-bit integer (beyond that range torch rejects the
    index before it looks at the axis). *)
Definition py_index {A} (l : list A) (i : Z) : result A :=
  let n := Z.of_nat (length l) in
  let j := if Z.ltb i 0 then i + n else i in
  if Z.ltb j 0 then Raise IndexError
  else match l !! Z.to_nat j with
       | Some x => Ok x
       | None => Raise IndexError
       end.

(** [x[:k]] on the leading axis: a negative bound counts from the end. *)
Definition py_slice_to {A} (k : Z) (l : list A) : list A :=
  if Z.leb 0 k then take (Z.to_nat k) l
  else take (length l - Z.to_nat (- k))%nat l.

(** [self.X[batch_num]] where the attribute may still be [None]. *)
Definition subscript_attr (a : option Array) (i : Z) : result Sample :=
  match a with
  | None => Raise TypeError
  | Some arr => py_index (a_data arr) i
  end.
End Arrays.
Arguments Sample : clear implicits.
Arguments Array : clear implicits.

(** [range(n)], [np.arange(n)] and [arr.repeat(k)] (every element [k] times
    in a row; numpy refuses a negative count). *)
Definition py_range (n : Z) : list Z := seqZ 0 n.

Definition np_arange (n : nat) : list Z := Z.of_nat <$> seq 0 n.

Definition np_repeat (k : Z) (l : list Z) : result (list Z) :=
  if Z.ltb k 0 then Raise ValueError
  else Ok (l ≫= λ x, replicate (Z.to_nat k) x).

(** ** The collaborators the module imports *)

Class Backend := {
  F : Type;                      (* floating scalars *)
  Plane : Type;                  (* one height x width slab of a tensor *)
  Param : Type;                  (* one parameter tensor of the network *)
  Rng : Type;                    (* state of torch's global generator *)
  LossFn : Type;                 (* a callable given as the loss *)
  OptFactory : Type;             (* an optimizer class such as torch.optim.Adam *)
  f_dec : Z → Z → F;             (* the literal m * 10^k *)
  fadd : F → F → F;
  fdiv : F → F → F;              (* a sum over a count other than 0 *)
  py_pow : Z → F → result F;     (* an int to a float power: may overflow,
                                    and 0 to a negative power is an error *)
  py_truediv : F → F → result F; (* ZeroDivisionError on a zero divisor *)
  fsqrt : F → F;
  around : F → Z → F;            (* np.around *)
  padd : Param → Param → Param;
  normal_ : Rng → Param → F → result (Param * Rng);
                                 (* v.new(v.shape).normal_(0, std); torch
                                    refuses a tensor that is not floating,
                                    and a deviation that is not 0 or more *)
  seed_rng : Z → Rng;
  sk_shuffle : Z → list Z → list Z;
                                 (* sklearn.utils.shuffle(arr, random_state=s) *)
  sk_shuffle_perm : ∀ s l, sk_shuffle s l ≡ₚ l;
  train_test_split :
    Array Plane → Array Plane → F → Z →
    result (Array Plane * Array Plane * Array Plane * Array Plane);
  cuda_is_available : bool;
  SegResNet_init : Rng → list (string * Param) * Rng;
                                 (* CountingNN.FCN.SegResNet() *)
  num_classes_from_labels : Array Plane → result Z;
  check_image_dims :
    Array Plane → Array Plane → Array Plane → Array Plane → Z →
    result (Array Plane * Array Plane * Array Plane * Array Plane)
}.

Definition f_of_Z `{Backend} (z : Z) : F := f_dec z 0.


(** ** The trainer object and the world around it *)

Section Model.
Context `{B : Backend}.

Abbreviation Snapshot := (list (string * Param)).
Abbreviation Data := (Array Plane).
Abbreviation Item := (Sample Plane).

(** A network: its named parameters and its train/eval mode flag. *)
Record Net := mkNet {
  params : Snapshot;
  training : bool
}.

Inductive Device := cuda | cpu.

(** [perturb_weights] holds a flag or a dict with keys a, gamma, e_p. *)
Inductive PerturbCfg :=
| PW_bool (b : bool)
| PW_dict (a gamma : F) (e_p : Z).

(** The [loss] argument: a token or a callable. *)
Inductive loss_arg :=
| LossToken (s : string)
| LossCallable (f : LossFn).

Inductive Criterion :=
| BCEWithLogitsLoss
| CrossEntropyLoss
| MSELoss
| UserLoss (f : LossFn).

(** The batch index sequences start as Python lists and become numpy
    arrays in [fit]. *)
Inductive IdxSeq :=
| PyList (l : list Z)
| NdArray (l : list Z).

Definition idx_items (s : IdxSeq) : list Z :=
  match s with PyList l | NdArray l => l end.

Record LossAcc := mkLossAcc {
  train_loss : list F;
  test_loss : list F;
  train_accuracy : list F;
  test_accuracy : list F
}.

(** [torch.utils.data.TensorDataset]: the tensors it was built
    from, each a list of rows. *)
Definition TensorDataset := list (list Item).

(** The instance attributes, in the order [__init__] assigns them
    ([meta_state_dict], an empty dict no method touches, is left out).
    [accuracy_metrics] is read by [print_statistics] but assigned nowhere:
    [None] here means the attribute does not exist. *)
Record Trainer := mkTrainer {
  device : Device;
  net : option Net;
  criterion : option Criterion;
  optimizer : option OptFactory;
  compute_accuracy : bool;
  full_epoch : bool;
  swa : bool;
  perturb_weights : PerturbCfg;
  running_weights : gmap Z Snapshot;
  training_cycles : Z;
  batch_idx_train : IdxSeq;
  batch_idx_test : IdxSeq;
  batch_size : Z;
  nb_class : option Z;
  X_train : option Data;
  y_train : option Data;
  X_test : option Data;
  y_test : option Data;
  train_loader : TensorDataset;
  test_loader : TensorDataset;
  data_is_set : bool;
  filename : string;
  print_loss : option Z;
  loss_acc : LossAcc;
  accuracy_metrics : option (option string)
}.

Definition set_net (v : option Net) (t : Trainer) : Trainer :=
  let '(mkTrainer d _ c o ca fe sw pw rw tc bt bs sz nc xt yt xs ys tl sl ds fn pl la am) := t in
  mkTrainer d v c o ca fe sw pw rw tc bt bs sz nc xt yt xs ys tl sl ds fn pl la am.

Definition set_criterion (v : option Criterion) (t : Trainer) : Trainer :=
  let '(mkTrainer d n _ o ca fe sw pw rw tc bt bs sz nc xt yt xs ys tl sl ds fn pl la am) := t in
  mkTrainer d n v o ca fe sw pw rw tc bt bs sz nc xt yt xs ys tl sl ds fn pl la am.

Definition set_running_weights (v : gmap Z Snapshot) (t : Trainer) : Trainer :=
  let '(mkTrainer d n c o ca fe sw pw _ tc bt bs sz nc xt yt xs ys tl sl ds fn pl la am) := t in
  mkTrainer d n c o ca fe sw pw v tc bt bs sz nc xt yt xs ys tl sl ds fn pl la am.

Definition set_batch_idx_train (v : IdxSeq) (t : Trainer) : Trainer :=
  let '(mkTrainer d n c o ca fe sw pw rw tc _ bs sz nc xt yt xs ys tl sl ds fn pl la am) := t in
  mkTrainer d n c o ca fe sw pw rw tc v bs sz nc xt yt xs ys tl sl ds fn pl la am.

Definition set_batch_idx_test (v : IdxSeq) (t : Trainer) : Trainer :=
  let '(mkTrainer d n c o ca fe sw pw rw tc bt _ sz nc xt yt xs ys tl sl ds fn pl la am) := t in
  mkTrainer d n c o ca fe sw pw rw tc bt v sz nc xt yt xs ys tl sl ds fn pl la am.

Definition set_filename (v : string) (t : Trainer) : Trainer :=
  let '(mkTrainer d n c o ca fe sw pw rw tc bt bs sz nc xt yt xs ys tl sl ds _ pl la am) := t in
  mkTrainer d n c o ca fe sw pw rw tc bt bs sz nc xt yt xs ys tl sl ds v pl la am.

Definition set_loss_acc (v : LossAcc) (t : Trainer) : Trainer :=
  let '(mkTrainer d n c o ca fe sw pw rw tc bt bs sz nc xt yt xs ys tl sl ds fn pl _ am) := t in
  mkTrainer d n c o ca fe sw pw rw tc bt bs sz nc xt yt xs ys tl sl ds fn pl v am.

(** What a run leaves outside the object: console output, generator draws,
    calls of the train/test step, the plot, and the files written.
    [EvWarn] records a call of [warnings.warn], not a line on the console:
    whether the warning is shown is up to Python's warning filters (by
    default once for each place it is raised from). *)
Inductive Event :=
| EvWarn (msg : string)
| EvPrint (msg : string)
| EvPrintStats (epoch total : Z) (train test : F)
    (acc : option (string * F * F))
| EvPrintEvalLoss (v : F)
| EvPrintEvalIoU (v : F)
| EvNormal (noise : Param)
| EvTrainStep (features targets : Item)
| EvTestStep (features targets : Item)
| EvPlot (train test : list F).

Record World := mkWorld {
  rng : Rng;
  log : list Event;
  files : gmap string Snapshot
}.

Record State := mkState {
  self : Trainer;
  world : World
}.

(** ** The monad of methods: state that survives a raised exception *)

Definition M (A : Type) : Type := State → result A * State.

#[local] Instance M_ret : MRet M := λ A x s, (Ok x, s).
#[local] Instance M_bind : MBind M :=
  λ A B f m s,
    match m s with
    | (Ok x, s') => f x s'
    | (Raise e, s') => (Raise e, s')
    end.

Definition raise {A} (e : exn) : M A := λ s, (Raise e, s).
Definition lift {A} (r : result A) : M A := λ s, (r, s).
Definition get_self : M Trainer := λ s, (Ok (self s), s).
Definition modify_self (f : Trainer → Trainer) : M unit :=
  λ s, (Ok tt, mkState (f (self s)) (world s)).
Definition get_rng : M Rng := λ s, (Ok (rng (world s)), s).
Definition put_rng (r : Rng) : M unit :=
  λ s, (Ok tt, mkState (self s)
                 (mkWorld r (log (world s)) (files (world s)))).
Definition emit (ev : Event) : M unit :=
  λ s, (Ok tt, mkState (self s)
                 (mkWorld (rng (world s)) (log (world s) ++ [ev])
                    (files (world s)))).
Definition write_file (path : string) (sd : Snapshot) : M unit :=
  λ s, (Ok tt, mkState (self s)
                 (mkWorld (rng (world s)) (log (world s))
                    (<[path := sd]> (files (world s))))).

Fixpoint for_each {A} (l : list A) (body : A → M unit) : M unit :=
  match l with
  | [] => mret tt
  | x :: l' => body x ;; for_each l' body
  end.

(** ** Calls

    Python binds the positional arguments of a call to the parameters of
    the [def]; neither [step] nor [preprocess_training_image_data] has
    defaults, so a call with another number of arguments is a [TypeError].
    A bound-method call [self.m(a, ...)] passes the object first. *)
Inductive pyval :=
| VTrainer
| VArray (a : Data)
| VInt (z : Z)
| VNone.

Definition bind_positional (parameters : list string) (args : list pyval)
  : result (list pyval) :=
  if decide (length args = length parameters) then Ok args
  else Raise TypeError.

(** ** Methods the class relies on but does not define *)

(** Modelled from the spec: [train_step], [test_step], [average_weights]
    and [plot_losses] are called on [self] but defined nowhere in
    [main.py]; a class is represented by what it supplies for them.
    Following the step executor of the spec, a train step maps features,
    targets and the network to (loss, accuracy) and the updated network, a
    test step to (loss, accuracy) only; averaging maps the buffer of
    captured snapshots to one snapshot. *)
Record Klass := mkKlass {
  k_train_step : option (Item → Item → Net → (F * F) * Net);
  k_test_step : option (Item → Item → Net → F * F);
  k_average_weights : option (gmap Z Snapshot → Snapshot);
  k_plot_losses : bool
}.

(** The class as [main.py] writes it. *)
Definition Trainer_class : Klass := mkKlass None None None false.

(** Attribute access on something that may be missing (or be [None]). *)
Definition getattr {A} (o : option A) : M A :=
  match o with
  | Some x => mret x
  | None => raise AttributeError
  end.

(** ** [__init__] (main.py, lines 35-59) *)

(** Modelled from the spec: [CountingNN.utils.set_train_rng] seeds the
    process-global generator. *)
Definition set_train_rng (seed : Z) : M unit := put_rng (seed_rng seed).

Definition fresh_trainer : Trainer := {|
  device := if cuda_is_available then cuda else cpu;
  net := None;
  criterion := None;
  optimizer := None;
  compute_accuracy := false;
  full_epoch := true;
  swa := false;
  perturb_weights := PW_bool false;
  running_weights := ∅;
  training_cycles := 0;
  batch_idx_train := PyList [];
  batch_idx_test := PyList [];
  batch_size := 1;
  nb_class := None;
  X_train := None;
  y_train := None;
  X_test := None;
  y_test := None;
  train_loader := [];
  test_loader := [];
  data_is_set := false;
  filename := "model";
  print_loss := Some 1;
  loss_acc := mkLossAcc [] [] [] [];
  accuracy_metrics := None
|}.

Definition __init__ : M unit :=
  set_train_rng 1;;
  modify_self (λ _, fresh_trainer).

(** ** [weight_perturbation] (lines 61-74) *)

(** [if x:] on the flag-or-dict: a dict with three keys is true. *)
Definition truthy (p : PerturbCfg) : bool :=
  match p with
  | PW_bool b => b
  | PW_dict _ _ _ => true
  end.

(** [self.net.state_dict()[k].copy_(v')] *)
Definition copy_into (k : string) (v' : Param) (n : Net) : Net :=
  mkNet ((λ kv : string * Param, if decide (kv.1 = k) then (k, v') else kv)
           <$> params n)
        (training n).

(** One round of the loop over [state_dict().items()]. *)
Definition perturb_param (std : F) (kv : string * Param) : M unit :=
  r ← get_rng;
  '(noise, r') ← lift (normal_ r kv.2 std);
  put_rng r';;
  emit (EvNormal noise);;
  modify_self (λ t, set_net (copy_into kv.1 (padd kv.2 noise) <$> net t) t).

(** The first statement subscripts [self.perturb_weights]; a bool is not
    subscriptable.  The variance [a / (1 + e) ** gamma] is computed, and
    may raise, before the network is looked at. *)
Definition weight_perturbation (e : Z) : M unit :=
  t ← get_self;
  match perturb_weights t with
  | PW_bool _ => raise TypeError
  | PW_dict a gamma e_p =>
      if decide (e_p = 0) then raise ZeroDivisionError
      else if decide ((e + 1) `mod` e_p = 0) then
        p ← lift (py_pow (1 + e) gamma);
        var ← lift (py_truediv a p);
        n ← getattr (net t);
        for_each (params n) (perturb_param (fsqrt var))
      else mret tt
  end.

(** ** [preprocess_training_image_data] (lines 76-105) *)

Definition preprocess_parameters : list string :=
  ["self"; "labels_all"; "images_test_all"; "labels_test_all"].

Definition isinstance (r : repr) (v : pyval) : bool :=
  match v with
  | VArray a => match a_repr a, r with
                | NumPy, NumPy | Torch, Torch => true
                | _, _ => false
                end
  | _ => false
  end.

Definition from_numpy (a : Data) : Data := mkArray Torch (a_dtype a) (a_data a).
Definition cast (d : dtype) (a : Data) : Data := mkArray (a_repr a) d (a_data a).

(** The first parameter is named [self] but is the training images. *)
Definition preprocess_training_image_data
    (self labels_all images_test_all labels_test_all : pyval)
  : result (Data * Data * Data * Data * Z) :=
  let all_data := [self; labels_all; images_test_all; labels_test_all] in
  let all_numpy := forallb (isinstance NumPy) all_data in
  let all_torch := forallb (isinstance Torch) all_data in
  if negb all_numpy && negb all_torch then Raise TypeError
  else match self, labels_all, images_test_all, labels_test_all with
       | VArray x, VArray l, VArray xt, VArray lt =>
           num_classes ← num_classes_from_labels l;
           '(x, l, xt, lt) ← check_image_dims x l xt lt num_classes;
           let conv := if all_numpy then from_numpy else id in
           let x := cast Float (conv x) in
           let xt := cast Float (conv xt) in
           let dl := if Z.ltb 1 num_classes then Long else Float in
           Ok (x, cast dl (conv l), xt, cast dl (conv lt), num_classes)
       | _, _, _, _ => Raise TypeError
       end.

Definition apply_preprocess (args : list pyval)
  : result (Data * Data * Data * Data * Z) :=
  match args with
  | [a0; a1; a2; a3] => preprocess_training_image_data a0 a1 a2 a3
  | _ => Raise TypeError
  end.

(** ** [select_loss] (lines 107-132) *)

Definition is_token (s : string) (l : loss_arg) : bool :=
  match l with
  | LossToken s' => bool_decide (s' = s)
  | LossCallable _ => false
  end.

Definition nb_is (k : Z) (nb : option Z) : bool :=
  match nb with Some k' => bool_decide (k' = k) | None => false end.

(** [nb_classes > 2]; evaluated only after the [None] case was taken. *)
Definition nb_gt (k : Z) (nb : option Z) : bool :=
  match nb with Some k' => bool_decide (k < k') | None => false end.

Definition select_loss (loss : loss_arg) (nb_classes : option Z)
  : result Criterion :=
  if is_token "ce" loss && bool_decide (nb_classes = None)
  then Raise ValueError
  else if is_token "ce" loss && nb_is 1 nb_classes
  then Ok BCEWithLogitsLoss
  else if is_token "ce" loss && nb_gt 2 nb_classes
  then Ok CrossEntropyLoss
  else if is_token "mse" loss
  then Ok MSELoss
  else match loss with
       | LossCallable f => Ok (UserLoss f)
       | LossToken _ => Raise NotImplementedError
       end.

(** ** [dataloader] (lines 134-148) *)

Definition dataloader (t : Trainer) (batch_num : Z) (mode : string)
  : result (Item * Item) :=
  if decide (mode = "test") then
    x ← subscript_attr (X_test t) batch_num;
    let features := py_slice_to (batch_size t) x in
    y ← subscript_attr (y_test t) batch_num;
    let targets := py_slice_to (batch_size t) y in
    Ok (features, targets)
  else
    x ← subscript_attr (X_train t) batch_num;
    let features := py_slice_to (batch_size t) x in
    y ← subscript_attr (y_train t) batch_num;
    let targets := py_slice_to (batch_size t) y in
    Ok (features, targets).

(** ** [step] (lines 150-168) *)

(** [def step(self: int) -> None]: one parameter. *)
Definition step_parameters : list string := ["self"].

(** [self.batch_idx_train[self]]: the subscript is the object itself, which
    a list rejects with [TypeError] and a numpy array with [IndexError]. *)
Definition subscript_by_object (s : IdxSeq) : result Z :=
  match s with
  | PyList _ => Raise TypeError
  | NdArray _ => Raise IndexError
  end.

Definition call_train_step (K : Klass) (features targets : Item) : M (F * F) :=
  ts ← getattr (k_train_step K);
  t ← get_self;
  n ← getattr (net t);
  emit (EvTrainStep features targets);;
  let '(loss, n') := ts features targets n in
  modify_self (set_net (Some n'));;
  mret loss.

Definition call_test_step (K : Klass) (features targets : Item) : M (F * F) :=
  ts ← getattr (k_test_step K);
  t ← get_self;
  n ← getattr (net t);
  emit (EvTestStep features targets);;
  mret (ts features targets n).

Definition append_train_loss (v : F) (t : Trainer) : Trainer :=
  let la := loss_acc t in
  set_loss_acc (mkLossAcc (train_loss la ++ [v]) (test_loss la)
                  (train_accuracy la) (test_accuracy la)) t.

Definition append_test_loss (v : F) (t : Trainer) : Trainer :=
  let la := loss_acc t in
  set_loss_acc (mkLossAcc (train_loss la) (test_loss la ++ [v])
                  (train_accuracy la) (test_accuracy la)) t.

Definition append_accuracies (tr te : F) (t : Trainer) : Trainer :=
  let la := loss_acc t in
  set_loss_acc (mkLossAcc (train_loss la) (test_loss la)
                  (train_accuracy la ++ [tr]) (test_accuracy la ++ [te])) t.

Definition step_body (K : Klass) : M unit :=
  t ← get_self;
  b ← lift (subscript_by_object (batch_idx_train t));
  '(features, targets) ← lift (dataloader t b "train");
  loss ← call_train_step K features targets;
  modify_self (append_train_loss loss.1);;
  t ← get_self;
  b_ ← lift (subscript_by_object (batch_idx_test t));
  '(features_, targets_) ← lift (dataloader t b_ "test");
  loss_ ← call_test_step K features_ targets_;
  modify_self (append_test_loss loss_.1);;
  t ← get_self;
  if compute_accuracy t
  then modify_self (append_accuracies loss.2 loss_.2)
  else mret tt.

(** The bound-method call [self.step(args...)]. *)
Definition step (K : Klass) (args : list pyval) : M unit :=
  lift (bind_positional step_parameters (VTrainer :: args));;
  step_body K.

(** ** [save_running_weights] (lines 170-181) *)

(** [copy.deepcopy(v).cpu()] of every entry: in a model of values the copy
    is the snapshot as it is at this moment. *)
Definition save_running_weights (e : Z) : M unit :=
  t ← get_self;
  let swa_epochs := 30 in
  if decide (training_cycles t - e ≤ swa_epochs) then
    let i_ := swa_epochs - (training_cycles t - e) in
    n ← getattr (net t);
    let state_dict_ := params n in
    modify_self (λ t, set_running_weights
                        (<[i_ := state_dict_]> (running_weights t)) t)
  else mret tt.

(** ** [print_statistics] (lines 183-222) *)

(** [seq[-1]] *)
Definition py_last {A} (l : list A) : result A :=
  match last l with
  | Some x => Ok x
  | None => Raise IndexError
  end.

(** The GPU memory figures of the printed line come from [nvidia-smi] and
    are not part of the event. *)
Definition print_statistics (e : Z) : M unit :=
  t ← get_self;
  am ← getattr (accuracy_metrics t);
  let accuracy_metrics := default "Accuracy" am in
  let la := loss_acc t in
  if compute_accuracy t then
    tr ← lift (py_last (train_loss la));
    te ← lift (py_last (test_loss la));
    tra ← lift (py_last (train_accuracy la));
    tea ← lift (py_last (test_accuracy la));
    emit (EvPrintStats (e + 1) (training_cycles t) (around tr 4) (around te 4)
            (Some (accuracy_metrics, around tra 4, around tea 4)))
  else
    tr ← lift (py_last (train_loss la));
    te ← lift (py_last (test_loss la));
    emit (EvPrintStats (e + 1) (training_cycles t) (around tr 4) (around te 4)
            None).

(** ** [eval_model] (lines 224-256) *)

(** [for features_, targets_ in self.test_loader]: a dataset is iterated by
    index until [IndexError], each item the tuple of the tensors' rows at
    that index, unpacked into two names.  A dataset of no tensors yields
    the empty tuple at every index. *)
Definition dataset_pairs (d : TensorDataset) : result (list (Item * Item)) :=
  match d with
  | [] => Raise ValueError
  | [X; y] => Ok (zip X y)
  | X :: _ => if decide (length X = 0%nat) then Ok [] else Raise ValueError
  end.

Definition py_div_count (x : F) (c : Z) : result F :=
  if decide (c = 0) then Raise ZeroDivisionError
  else Ok (fdiv x (f_of_Z c)).

(** The body shared by the two loops: fetch the pair, run the test step,
    add to the running sums and count the round. *)
Fixpoint eval_loop {A} (K : Klass) (fetch : A → M (Item * Item))
    (xs : list A) (acc : F * F * Z) : M (F * F * Z) :=
  match xs with
  | [] => mret acc
  | x :: xs' =>
      '(features_, targets_) ← fetch x;
      loss_ ← call_test_step K features_ targets_;
      t ← get_self;
      let '(running_loss_test, running_acc_test, c) := acc in
      eval_loop K fetch xs'
        (fadd running_loss_test loss_.1,
         if compute_accuracy t then fadd running_acc_test loss_.2
         else running_acc_test,
         c + 1)
  end.

Definition eval_model (K : Klass) : M unit :=
  t ← get_self;
  n ← getattr (net t);
  modify_self (set_net (Some (mkNet (params n) false)));;
  let zero := (f_of_Z 0, f_of_Z 0, 0) in
  if full_epoch t then
    items ← lift (dataset_pairs (test_loader t));
    '(running_loss_test, running_acc_test, c) ← eval_loop K mret items zero;
    avg ← lift (py_div_count running_loss_test c);
    emit (EvPrintEvalLoss (around avg 4));;
    if compute_accuracy t then
      iou ← lift (py_div_count running_acc_test c);
      emit (EvPrintEvalIoU (around iou 4))
    else mret tt
  else
    match X_test t with
    | None => raise TypeError
    | Some X =>
        '(running_loss_test, running_acc_test, _) ←
          eval_loop K
            (λ idx, t' ← get_self; lift (dataloader t' idx "test"))
            (py_range (Z.of_nat (len X))) zero;
        avg ← lift (py_div_count running_loss_test (Z.of_nat (len X)));
        emit (EvPrintEvalLoss (around avg 4));;
        if compute_accuracy t then
          iou ← lift (py_div_count running_acc_test (Z.of_nat (len X)));
          emit (EvPrintEvalIoU (around iou 4))
        else mret tt
    end.

(** ** [fit] (lines 258-371) *)

(** Positional and keyword arguments; an option of [**kwargs] that the
    caller does not pass is [None]. *)
Record FitArgs := mkFitArgs {
  arg_X_train : Data;
  arg_y_train : Data;
  arg_X_test : option Data;
  arg_y_test : option Data;
  arg_nb_class : Z;
  arg_loss : loss_arg;
  arg_optimizer : option OptFactory;
  arg_training_cycles : Z;
  arg_batch_size : Z;
  arg_compute_accuracy : bool;
  arg_swa : bool;
  arg_perturb_weights : PerturbCfg;
  kw_print_loss : option Z;
  kw_test_size : option F;
  kw_seed : option Z;
  kw_memory_alloc : option Z;
  kw_batch_seed : option Z;
  kw_accuracy_metrics : option string;
  kw_filename : option string
}.

(** The attribute assignments that open [fit]. *)
Definition fit_configure (a : FitArgs) (t : Trainer) : Trainer := {|
  device := device t;
  net := net t;
  criterion := criterion t;
  optimizer := arg_optimizer a;
  compute_accuracy := arg_compute_accuracy a;
  full_epoch := full_epoch t;
  swa := arg_swa a;
  perturb_weights := arg_perturb_weights a;
  running_weights := running_weights t;
  training_cycles := arg_training_cycles a;
  batch_idx_train := batch_idx_train t;
  batch_idx_test := batch_idx_test t;
  batch_size := arg_batch_size a;
  nb_class := Some (arg_nb_class a);
  X_train := X_train t;
  y_train := y_train t;
  X_test := X_test t;
  y_test := y_test t;
  train_loader := train_loader t;
  test_loader := test_loader t;
  data_is_set := data_is_set t;
  filename := "model";
  print_loss := kw_print_loss a;
  loss_acc := mkLossAcc [] [] [] [];
  accuracy_metrics := accuracy_metrics t
|}.

(** [if isinstance(perturb_weights, bool): perturb_weights = {...}] rebinds
    the local name inside [if self.perturb_weights:]. *)
Definition canonical_perturbation : PerturbCfg :=
  PW_dict (f_dec 1 (-2)) (f_dec 15 (-1)) 50.

Definition local_perturb_weights (t : Trainer) (a : FitArgs) : PerturbCfg :=
  if truthy (perturb_weights t) then
    match arg_perturb_weights a with
    | PW_bool _ => canonical_perturbation
    | d => d
    end
  else arg_perturb_weights a.

(** [training_cycles // len(X)] *)
Definition floordiv (c : Z) (n : nat) : result Z :=
  if decide (n = 0%nat) then Raise ZeroDivisionError
  else Ok (c `div` Z.of_nat n).

(** [np.arange(n).repeat(r + 1)[:training_cycles]] *)
Definition unshuffled_schedule (n : nat) (cycles : Z) : result (list Z) :=
  r ← floordiv cycles n;
  arr ← np_repeat (r + 1) (np_arange n);
  Ok (py_slice_to cycles arr).

(** The schedule block: both index arrays are built, then both shuffled
    with [batch_seed] (1 when not given). *)
Definition build_schedules (n_train n_test : nat) (cycles : Z)
    (batch_seed : option Z) : M unit :=
  bt ← lift (unshuffled_schedule n_train cycles);
  modify_self (set_batch_idx_train (NdArray bt));;
  bs ← lift (unshuffled_schedule n_test cycles);
  modify_self (set_batch_idx_test (NdArray bs));;
  modify_self (λ t, set_batch_idx_train
    (NdArray (sk_shuffle (default 1 batch_seed)
                (idx_items (batch_idx_train t)))) t);;
  modify_self (λ t, set_batch_idx_test
    (NdArray (sk_shuffle (default 1 batch_seed)
                (idx_items (batch_idx_test t)))) t).

(** [if self.print_loss is None: print_loss = 100]: the local name
    [print_loss] is bound on that path only. *)
Definition local_print_loss (self_print_loss : option Z) : option Z :=
  match self_print_loss with
  | None => Some 100
  | Some _ => None
  end.

(** [any([e == 0, (e + 1) % print_loss == 0, e == training_cycles - 1])]:
    the list is built in full, so an unbound [print_loss] is an error on
    every cycle. *)
Definition report_due (local_print_loss : option Z) (cycles e : Z)
  : result bool :=
  match local_print_loss with
  | None => Raise UnboundLocalError
  | Some p =>
      if decide (p = 0) then Raise ZeroDivisionError
      else Ok (bool_decide (e = 0) || bool_decide ((e + 1) `mod` p = 0)
               || bool_decide (e = cycles - 1))
  end.

(** One round of the training loop. *)
Definition fit_cycle (K : Klass) (a : FitArgs) (pw : PerturbCfg)
    (plocal : option Z) (e : Z) : M unit :=
  step K [VInt e];;
  t ← get_self;
  (if swa t then save_running_weights e else mret tt);;
  (if truthy pw then weight_perturbation e else mret tt);;
  due ← lift (report_due plocal (arg_training_cycles a) e);
  if due : bool then print_statistics e else mret tt.

Definition fit (K : Klass) (a : FitArgs) : M Net :=
  modify_self (fit_configure a);;
  r ← get_rng;
  let '(weights, r') := SegResNet_init r in
  put_rng r';;
  let net0 := mkNet weights true in
  t ← get_self;
  (match device t return M unit with
   | cpu => emit (EvWarn "No GPU found. The training can be EXTREMELY slow")
   | cuda => mret tt
   end);;
  '(X_train, X_test, y_train, y_test) ←
    match arg_X_test a, arg_y_test a with
    | Some xt, Some yt => mret (arg_X_train a, xt, arg_y_train a, yt)
    | _, _ =>
        lift (train_test_split (arg_X_train a) (arg_y_train a)
                (default (f_dec 15 (-2)) (kw_test_size a))
                (default 1 (kw_seed a)))
    end;
  '(X_train, y_train, X_test, y_test, nb_classes) ←
    lift (args ← bind_positional preprocess_parameters
                   [VTrainer; VArray X_train; VArray y_train; VArray X_test;
                    VArray y_test; VInt (arg_batch_size a);
                    VInt (default 4 (kw_memory_alloc a))];
          apply_preprocess args);
  t ← get_self;
  (if decide (Some nb_classes ≠ nb_class t) then raise AssertionError
   else mret tt);;
  (if truthy (perturb_weights t)
   then emit (EvPrint "To use time-dependent weights perturbation, turn off the batch normalization layers")
   else mret tt);;
  let pw := local_perturb_weights t a in
  (* the optimizer built here is bound to a local name and not used again *)
  crit ← lift (select_loss (arg_loss a) (Some (arg_nb_class a)));
  modify_self (set_criterion (Some crit));;
  build_schedules (len X_train) (len X_test) (arg_training_cycles a)
    (kw_batch_seed a);;
  t ← get_self;
  let plocal := local_print_loss (print_loss t) in
  modify_self (set_filename (default "./model" (kw_filename a)));;
  t ← get_self;
  for_each (py_range (training_cycles t)) (fit_cycle K a pw plocal);;
  t ← get_self;
  write_file (filename t +:+ ".tar") (params net0);;
  eval_model K;;
  net1 ←
    (if arg_swa a then
       emit (EvPrint "Performing stochastic weight averaging...");;
       average_weights ← getattr (k_average_weights K);
       t ← get_self;
       let net1 := mkNet (average_weights (running_weights t)) (training net0) in
       eval_model K;;
       mret net1
     else mret net0);
  t ← get_self;
  (if k_plot_losses K
   then emit (EvPlot (train_loss (loss_acc t)) (test_loss (loss_acc t)))
   else raise AttributeError);;
  mret net1.

End Model.

(** ** Vocabulary of the statements *)

(** How often an index occurs in a schedule. *)
Definition occurrences (i : Z) (l : list Z) : nat := count_occ Z.eq_dec l i.

(** [n] consecutive integers from [s], each written [k] times in a row:
    what [np.arange(n).repeat(k)] is for [s = 0]. *)
Definition blocks (k s n : nat) : list Z :=
  (Z.of_nat <$> seq s n) ≫= λ x, replicate k x.

(** A schedule of [C] entries over a partition of size [n]: exactly [C]
    entries, all in [0, n), and index [i] taken
    min (r + 1, max (0, C - i * (r + 1))) times, where r = C // n. *)
Definition schedule_shape (n : nat) (C : Z) (l : list Z) : Prop :=
  Z.of_nat (length l) = C ∧
  (∀ z, z ∈ l → 0 ≤ z < Z.of_nat n) ∧
  ∀ i, 0 ≤ i < Z.of_nat n →
    Z.of_nat (occurrences i l)
    = Z.min (C `div` Z.of_nat n + 1)
        (Z.max 0 (C - i * (C `div` Z.of_nat n + 1))).

Section Vocabulary.
Context `{B : Backend}.

Abbreviation Snapshot := (list (string * Param)).
Abbreviation Item := (Sample Plane).

(** The noise tensors one perturbation draws, in the order of the
    parameters, and the generator after, when every draw succeeds. *)
Fixpoint draws (std : F) (ps : Snapshot) (r : Rng) : result (list Param * Rng) :=
  match ps with
  | [] => Ok ([], r)
  | kv :: ps' =>
      '(noise, r') ← normal_ r kv.2 std;
      '(ns, r'') ← draws std ps' r';
      Ok (noise :: ns, r'')
  end.






End Vocabulary.

Section MoreVocabulary.
Context `{B : Backend}.

Abbreviation Snapshot := (list (string * Param)).

(** The snapshot after noise was added, parameter by parameter. *)
Definition perturbed (ps : Snapshot) (noises : list Param) : Snapshot :=
  zip_with (λ kv noise, (kv.1, padd kv.2 noise)) ps noises.



(** A computation that leaves the object, the generator and the files as
    they are, whatever its outcome. *)
Definition keeps {A} (m : M A) : Prop :=
  ∀ s r s', m s = (r, s') →
    self s' = self s ∧ rng (world s') = rng (world s) ∧
    files (world s') = files (world s).

End MoreVocabulary.

(** ** The end-to-end scenario

    [fit(X, y, training_cycles=60, batch_size=1)]: no test data, no SWA, no
    perturbation, every other argument at its default. *)
Definition scenario `{Backend} (X y : Array Plane) : FitArgs := {|
  arg_X_train := X;
  arg_y_train := y;
  arg_X_test := None;
  arg_y_test := None;
  arg_nb_class := 1;
  arg_loss := LossToken "ce";
  arg_optimizer := None;
  arg_training_cycles := 60;
  arg_batch_size := 1;
  arg_compute_accuracy := false;
  arg_swa := false;
  arg_perturb_weights := PW_bool false;
  kw_print_loss := None;
  kw_test_size := None;
  kw_seed := None;
  kw_memory_alloc := None;
  kw_batch_seed := None;
  kw_accuracy_metrics := None;
  kw_filename := None
|}.

(** ** An integer-valued backend

    Every carrier is [Z]; the shuffle reverses its input, the split holds
    out the first sample, a fresh network has one parameter, and the
    generator hands out consecutive numbers.  It serves to run the
    definitions on concrete inputs. *)

#[local] Instance Z_backend : Backend := {|
  F := Z;
  Plane := Z;
  Param := Z;
  Rng := Z;
  LossFn := unit;
  OptFactory := unit;
  f_dec := λ m k, if Z.leb 0 k then m * 10 ^ k else m;
  fadd := Z.add;
  fdiv := Z.div;
  py_pow := λ b g, Ok (b ^ g);
  py_truediv := λ x p, if decide (p = 0) then Raise ZeroDivisionError
                       else Ok (x `div` p);
  fsqrt := Z.sqrt;
  around := λ x _, x;
  padd := Z.add;
  normal_ := λ r _ _, Ok (r, r + 1);
  seed_rng := λ s, s;
  sk_shuffle := λ _ l, reverse l;
  sk_shuffle_perm := λ _ l, reverse_Permutation l;
  train_test_split := λ X y _ _,
    Ok (mkArray (a_repr X) (a_dtype X) (drop 1 (a_data X)),
        mkArray (a_repr X) (a_dtype X) (take 1 (a_data X)),
        mkArray (a_repr y) (a_dtype y) (drop 1 (a_data y)),
        mkArray (a_repr y) (a_dtype y) (take 1 (a_data y)));
  cuda_is_available := false;
  SegResNet_init := λ r, ([("w", 0)], r);
  num_classes_from_labels := λ _, Ok 1;
  check_image_dims := λ x l xt lt _, Ok (x, l, xt, lt)
|}.

(** A trainer of the integer backend that holds two training samples of
    two channels each and three one-channel test samples, with a bound
    network. *)
Definition demo_trainer : @Trainer Z_backend := {|
  device := cpu;
  net := Some (mkNet [("w", 5); ("b", 7)] true);
  criterion := None;
  optimizer := None;
  compute_accuracy := false;
  full_epoch := false;
  swa := true;
  perturb_weights := PW_dict 1 2 50;
  running_weights := ∅;
  training_cycles := 5;
  batch_idx_train := NdArray [1; 0; 0; 1; 0];
  batch_idx_test := NdArray [2; 2; 1; 0; 0];
  batch_size := 1;
  nb_class := Some 1;
  X_train := Some (mkArray Torch Float [[10; 11]; [20; 21]]);
  y_train := Some (mkArray Torch Float [[0; 1]; [1; 0]]);
  X_test := Some (mkArray Torch Float [[30]; [40]; [50]]);
  y_test := Some (mkArray Torch Float [[1]; [0]; [1]]);
  train_loader := [];
  test_loader := [[[30]; [40]; [50]]; [[1]; [0]; [1]]];
  data_is_set := false;
  filename := "model";
  print_loss := None;
  loss_acc := mkLossAcc [] [] [] [];
  accuracy_metrics := None
|}.

Definition demo_world : @World Z_backend := mkWorld 0 [] ∅.

(** [fit(X, y, training_cycles=100, swa=True, perturb_weights=True,
    print_loss=10)] on three two-channel samples. *)
Definition demo_fit_args : @FitArgs Z_backend := {|
  arg_X_train := mkArray NumPy Native [[10; 11]; [20; 21]; [30; 31]];
  arg_y_train := mkArray NumPy Native [[0; 1]; [1; 0]; [1; 1]];
  arg_X_test := None;
  arg_y_test := None;
  arg_nb_class := 1;
  arg_loss := LossToken "ce";
  arg_optimizer := None;
  arg_training_cycles := 100;
  arg_batch_size := 32;
  arg_compute_accuracy := false;
  arg_swa := true;
  arg_perturb_weights := PW_bool true;
  kw_print_loss := Some 10;
  kw_test_size := None;
  kw_seed := None;
  kw_memory_alloc := None;
  kw_batch_seed := None;
  kw_accuracy_metrics := None;
  kw_filename := None
|}.

(** A subclass that supplies the steps: the loss of a pair is the sum of
    its first feature plane and first target plane. *)
Definition demo_class : @Klass Z_backend := {|
  k_train_step := Some (λ f t n, ((hd 0 f + hd 0 t, 0), n));
  k_test_step := Some (λ f t _, (hd 0 f + hd 0 t, 0));
  k_average_weights := None;
  k_plot_losses := false
|}.

(** A trainer of the integer backend with a loss history, a display label
    and an empty test partition. *)
Definition demo_history_trainer : @Trainer Z_backend := {|
  device := cpu;
  net := Some (mkNet [("w", 5); ("b", 7)] true);
  criterion := None;
  optimizer := None;
  compute_accuracy := false;
  full_epoch := false;
  swa := false;
  perturb_weights := PW_bool false;
  running_weights := ∅;
  training_cycles := 8;
  batch_idx_train := NdArray [];
  batch_idx_test := NdArray [];
  batch_size := 1;
  nb_class := Some 1;
  X_train := None;
  y_train := None;
  X_test := Some (mkArray Torch Float []);
  y_test := Some (mkArray Torch Float []);
  train_loader := [];
  test_loader := [];
  data_is_set := false;
  filename := "model";
  print_loss := None;
  loss_acc := mkLossAcc [9; 4] [8; 6] [] [];
  accuracy_metrics := Some None
|}.

(** * Properties *)

(** Unfold the monad's plumbing so that a run can be followed statement
    by statement. *)
Ltac mrun :=
  unfold mbind, mret, M_bind, M_ret, get_self, get_rng, put_rng, modify_self,
    emit, lift, raise, getattr, write_file;
  cbn beta iota.

Section Properties.
Context `{B : Backend}.

Abbreviation Snapshot := (list (string * Param)).
Abbreviation Data := (Array Plane).
Abbreviation Item := (Sample Plane).

(** ** Loss selection *)

(** C3: the case table of [select_loss]: cross-entropy without a class count
    is a [ValueError]; with one class it is the binary loss with logits; with
    more than two classes the categorical loss; "mse" is the squared error
    whatever the class count; a callable comes back as it is; any other
    token is a [NotImplementedError]; and "ce" with two classes reaches the
    last branch, where the string is rejected. *)
Theorem select_loss_table (k : Z) (nb : option Z) (s : string) (f : LossFn) :
  select_loss (LossToken "ce") None = Raise ValueError ∧
  select_loss (LossToken "ce") (Some 1) = Ok BCEWithLogitsLoss ∧
  (2 < k → select_loss (LossToken "ce") (Some k) = Ok CrossEntropyLoss) ∧
  select_loss (LossToken "mse") nb = Ok MSELoss ∧
  select_loss (LossCallable f) nb = Ok (UserLoss f) ∧
  (s ≠ "ce" → s ≠ "mse" →
   select_loss (LossToken s) nb = Raise NotImplementedError) ∧
  select_loss (LossToken "ce") (Some 2) = Raise NotImplementedError.
Proof.
  repeat split; try reflexivity.
  - intros Hk. unfold select_loss; simpl.
    rewrite (bool_decide_eq_false_2 (k = 1)) by lia.
    rewrite (bool_decide_eq_true_2 (2 < k)) by lia. reflexivity.
  - intros Hce Hmse. unfold select_loss, is_token.
    rewrite (bool_decide_eq_false_2 (s = "ce")) by assumption.
    rewrite (bool_decide_eq_false_2 (s = "mse")) by assumption.
    reflexivity.
Qed.

(** ** Mini-batches *)

Lemma py_slice_to_prefix {A} (k : Z) (l : list A) : py_slice_to k l `prefix_of` l.
Proof.
  unfold py_slice_to. destruct (Z.leb 0 k).
  - exists (drop (Z.to_nat k) l). symmetry. apply take_drop.
  - exists (drop (length l - Z.to_nat (- k)) l). symmetry. apply take_drop.
Qed.

Lemma dataloader_unfold (t : Trainer) (b : Z) (mode : string) :
  dataloader t b mode =
  let X := if decide (mode = "test") then X_test t else X_train t in
  let y := if decide (mode = "test") then y_test t else y_train t in
  x ← subscript_attr X b;
  ys ← subscript_attr y b;
  Ok (py_slice_to (batch_size t) x, py_slice_to (batch_size t) ys).
Proof. unfold dataloader. destruct (decide (mode = "test")); reflexivity. Qed.

(** C10: with the data attributes of the chosen mode bound to [X] and [y],
    [dataloader] returns [(X[b][:batch_size], y[b][:batch_size])] for every
    index and every mode (an index outside the array is the [IndexError] of
    the subscript); whatever it returns is a leading part of the single
    sample at [b] and of its label, so the batch size bounds channels of one
    sample and never the number of samples. *)
Theorem dataloader_one_sample (t : Trainer) (X y : Data) (b : Z) (mode : string) :
  (if decide (mode = "test") then X_test t = Some X ∧ y_test t = Some y
   else X_train t = Some X ∧ y_train t = Some y) →
  dataloader t b mode =
    (x ← py_index (a_data X) b;
     ys ← py_index (a_data y) b;
     Ok (py_slice_to (batch_size t) x, py_slice_to (batch_size t) ys)) ∧
  ∀ features targets,
    dataloader t b mode = Ok (features, targets) →
    ∃ x ys,
      py_index (a_data X) b = Ok x ∧ py_index (a_data y) b = Ok ys ∧
      features `prefix_of` x ∧ targets `prefix_of` ys.
Proof.
  intros Hattr.
  assert (dataloader t b mode =
    (x ← py_index (a_data X) b;
     ys ← py_index (a_data y) b;
     Ok (py_slice_to (batch_size t) x, py_slice_to (batch_size t) ys))) as Heq.
  { rewrite dataloader_unfold.
    destruct (decide (mode = "test")); destruct Hattr as [-> ->]; reflexivity. }
  split; [exact Heq|].
  intros features targets Hret. rewrite Heq in Hret.
  destruct (py_index (a_data X) b) as [x|] eqn:Hx; [|discriminate].
  destruct (py_index (a_data y) b) as [ys|] eqn:Hy; [|discriminate].
  simpl in Hret. injection Hret as <- <-.
  exists x, ys. auto using @py_slice_to_prefix.
Qed.

(** ** The train/test step *)

Lemma step_body_raises (K : Klass) (s : State) :
  ∃ x, step_body K s = (Raise x, s) ∧ x ≠ AttributeError.
Proof.
  unfold step_body. mrun.
  destruct (batch_idx_train (self s)); cbn; eauto.
Qed.


(** ** The run as a whole *)

(** Whatever the class and the arguments, [fit] stops at the call of
    [preprocess_training_image_data], which passes seven values to four
    parameters (or earlier, when the split itself raises): no cycle runs,
    nothing is written, the accumulators stay as [fit] cleared them. *)
Lemma fit_never_returns (K : Klass) (a : FitArgs) (s : State) :
  ∃ e s',
    fit K a s = (Raise e, s') ∧
    files (world s') = files (world s) ∧
    loss_acc (self s') = mkLossAcc [] [] [] [] ∧
    (is_Ok (train_test_split (arg_X_train a) (arg_y_train a)
              (default (f_dec 15 (-2)) (kw_test_size a))
              (default 1 (kw_seed a))) → e = TypeError).
Proof.
  unfold fit. mrun. cbn [self world rng log files].
  destruct (SegResNet_init (rng (world s))) as [weights r'].
  cbn [self world rng log files].
  destruct (device (fit_configure a (self s)));
    cbn [self world rng log files];
    destruct (arg_X_test a) as [xt|], (arg_y_test a) as [yt|];
    try (destruct (train_test_split _ _ _ _) as [[[[X1 X2] y1] y2]|x]);
    cbn [self world rng log files].
  all: eexists _, _; split; [reflexivity|]; cbn.
  all: repeat split; auto; intros [].
Qed.

(** C1 (what the code does on the scenario): for images and labels of any
    shape, so also (200, 1, 32, 32), [fit] with [training_cycles=60],
    [batch_size=1] and no SWA or perturbation returns no model: it raises
    ([TypeError] at the call of [preprocess_training_image_data] once the
    split has succeeded), persists no file, and leaves every loss
    accumulator empty rather than of length 60. *)
Theorem fit_scenario_raises (K : Klass) (X y : Data) (s : State) :
  ∃ e s',
    fit K (scenario X y) s = (Raise e, s') ∧
    (is_Ok (train_test_split X y (f_dec 15 (-2)) 1) → e = TypeError) ∧
    files (world s') = files (world s) ∧
    length (train_loss (loss_acc (self s'))) = 0%nat ∧
    length (test_loss (loss_acc (self s'))) = 0%nat.
Proof.
  destruct (fit_never_returns K (scenario X y) s) as (e & s' & Hfit & Hf & Hl & He).
  exists e, s'. rewrite Hl. auto.
Qed.

(** ** Weight perturbation *)

Lemma for_each_cons {A} (x : A) (l : list A) (body : A → M unit) (s : State) :
  for_each (x :: l) body s =
  match body x s with
  | (Ok _, s') => for_each l body s'
  | (Raise e, s') => (Raise e, s')
  end.
Proof. reflexivity. Qed.

Lemma perturb_param_run (std : F) (kv : string * Param) (s : State) :
  perturb_param std kv s =
  match normal_ (rng (world s)) kv.2 std with
  | Ok (noise, r') =>
      (Ok tt,
       mkState (set_net (copy_into kv.1 (padd kv.2 noise) <$> net (self s)) (self s))
         (mkWorld r' (log (world s) ++ [EvNormal noise]) (files (world s))))
  | Raise x => (Raise x, s)
  end.
Proof.
  unfold perturb_param. mrun.
  destruct (normal_ (rng (world s)) kv.2 std) as [[noise r']|x]; reflexivity.
Qed.

Lemma draws_cons (std : F) (kv : string * Param) (ps : Snapshot) (r : Rng) :
  draws std (kv :: ps) r =
  match normal_ r kv.2 std with
  | Ok (noise, r') =>
      match draws std ps r' with
      | Ok (ns, r'') => Ok (noise :: ns, r'')
      | Raise x => Raise x
      end
  | Raise x => Raise x
  end.
Proof.
  cbn [draws]. unfold mbind, result_bind.
  destruct (normal_ r kv.2 std) as [[noise r']|x]; [|reflexivity].
  destruct (draws std ps r') as [[ns r'']|x]; reflexivity.
Qed.

Lemma net_set_net (v : option Net) (t : Trainer) : net (set_net v t) = v.
Proof. destruct t; reflexivity. Qed.


Lemma perturb_params_run (std : F) (ps : Snapshot) (s : State)
    (noises : list Param) (r' : Rng) :
  is_Some (net (self s)) →
  draws std ps (rng (world s)) = Ok (noises, r') →
  ∃ s',
    for_each ps (perturb_param std) s = (Ok tt, s') ∧
    is_Some (net (self s')) ∧
    log (world s') = (log (world s) ++ (EvNormal <$> noises))%list ∧
    rng (world s') = r' ∧
    files (world s') = files (world s).
Proof.
  revert s noises. induction ps as [|kv ps IH]; intros s noises Hnet Hd.
  - cbn in Hd. injection Hd as <- <-. exists s. cbn. rewrite app_nil_r. auto.
  - rewrite draws_cons in Hd. rewrite for_each_cons, perturb_param_run.
    destruct (normal_ (rng (world s)) kv.2 std) as [[noise r1]|x]; [|discriminate].
    destruct (draws std ps r1) as [[ns r2]|x] eqn:Hd'; [|discriminate].
    injection Hd as <- <-.
    match goal with |- context [for_each ps _ ?s0] =>
      destruct (IH s0 ns) as (s' & Hrun & Hnet' & Hlog & Hrng & Hfiles) end.
    { cbn [self]. rewrite net_set_net. destruct Hnet as [n ->]. cbn. eauto. }
    { exact Hd'. }
    cbn [self world rng log files] in *.
    exists s'. rewrite Hrun.
    rewrite Hlog, <- app_assoc. auto.
Qed.



(** C5 (what the code does when the flag is [True]): [fit] stores the flag
    itself in [self.perturb_weights] and binds the canonical schedule
    a = 0.01, gamma = 1.5, e_p = 50 to a local name only; the loop therefore
    calls [weight_perturbation] on every cycle, and the call subscripts the
    flag and raises [TypeError] without touching a parameter. *)
Theorem perturbation_flag_raises (a : FitArgs) (t : Trainer) (w : World) (e : Z) :
  arg_perturb_weights a = PW_bool true →
  local_perturb_weights (fit_configure a t) a = canonical_perturbation ∧
  perturb_weights (fit_configure a t) = PW_bool true ∧
  weight_perturbation e (mkState (fit_configure a t) w)
  = (Raise TypeError, mkState (fit_configure a t) w).
Proof.
  intros Hflag. unfold local_perturb_weights, weight_perturbation. mrun.
  cbn. rewrite Hflag. auto.
Qed.

(** ** Reporting *)

(** C8 (what the code does): the local name [print_loss] is bound, to 100,
    only when the caller gives no period; with a period supplied the
    reporting test raises [UnboundLocalError] on the very first cycle.  On
    the default path the test holds on cycle 0, on every cycle with
    (e + 1) mod 100 = 0 and on the last one, but [print_statistics] then
    reads [self.accuracy_metrics], which no method assigns, and raises
    [AttributeError] before it prints. *)
Theorem reporting_period_unbound (p cycles e : Z) (a : FitArgs) (w : World) :
  report_due (local_print_loss (Some p)) cycles e = Raise UnboundLocalError ∧
  report_due (local_print_loss None) cycles e
  = Ok (bool_decide (e = 0) || bool_decide ((e + 1) `mod` 100 = 0)
        || bool_decide (e = cycles - 1)) ∧
  print_statistics e (mkState (fit_configure a fresh_trainer) w)
  = (Raise AttributeError, mkState (fit_configure a fresh_trainer) w).
Proof. repeat split. Qed.

(** ** Stochastic weight averaging *)

(** With the network bound, the capture is as the window arithmetic says:
    nothing before the last 30 cycles, slot [30 - (training_cycles - e)]
    from then on. *)
Lemma save_running_weights_slot (t : Trainer) (w : World) (n : Net) (e : Z) :
  net t = Some n →
  save_running_weights e (mkState t w) =
  (Ok tt,
   if decide (training_cycles t - e ≤ 30)
   then mkState (set_running_weights
                   (<[30 - (training_cycles t - e) := params n]> (running_weights t)) t) w
   else mkState t w).
Proof.
  intros Hnet. unfold save_running_weights. mrun. cbn [self world].
  destruct (decide (training_cycles t - e ≤ 30)); [|reflexivity].
  rewrite Hnet. reflexivity.
Qed.

(** For 100 cycles that is: cycles 0 to 69 store nothing, cycle [e] from
    70 to 99 stores the current snapshot at slot [e - 70]. *)
Lemma save_running_weights_window (t : Trainer) (w : World) (n : Net) (e : Z) :
  training_cycles t = 100 → net t = Some n → 0 ≤ e < 100 →
  save_running_weights e (mkState t w) =
  (Ok tt,
   if decide (70 ≤ e)
   then mkState (set_running_weights (<[e - 70 := params n]> (running_weights t)) t) w
   else mkState t w) ∧
  (70 ≤ e → 0 ≤ e - 70 ≤ 29).
Proof.
  intros Hc Hnet He. rewrite (save_running_weights_slot t w n e Hnet), Hc.
  split; [|lia].
  destruct (decide (100 - e ≤ 30)), (decide (70 ≤ e)); try lia; [|reflexivity].
  replace (30 - (100 - e)) with (e - 70) by lia. reflexivity.
Qed.

(** C6 (what the code does): [fit] keeps the network in a local name and
    never binds [self.net], so with [training_cycles=100] the capture does
    nothing before cycle 70 and from cycle 70 on raises [AttributeError]
    at [self.net.state_dict()], the buffer unchanged; and the averaging
    [self.average_weights] is a method the class does not define. *)
Theorem swa_capture_unbound_net (a : FitArgs) (w : World) (e : Z) :
  arg_training_cycles a = 100 →
  (e < 70 →
   save_running_weights e (mkState (fit_configure a fresh_trainer) w)
   = (Ok tt, mkState (fit_configure a fresh_trainer) w)) ∧
  (70 ≤ e →
   save_running_weights e (mkState (fit_configure a fresh_trainer) w)
   = (Raise AttributeError, mkState (fit_configure a fresh_trainer) w)) ∧
  getattr (k_average_weights Trainer_class) (mkState (fit_configure a fresh_trainer) w)
  = (Raise AttributeError, mkState (fit_configure a fresh_trainer) w).
Proof.
  intros Hc. unfold save_running_weights. mrun. cbn. rewrite Hc.
  repeat split; intros He.
  - rewrite decide_False by lia. reflexivity.
  - rewrite decide_True by lia. reflexivity.
Qed.

(** ** Batch schedules *)

Lemma occurrences_replicate (j : nat) (x i : Z) :
  occurrences i (replicate j x) = if decide (x = i) then j else 0%nat.
Proof.
  unfold occurrences. induction j as [|j IH]; cbn.
  - destruct (decide (x = i)); reflexivity.
  - rewrite IH. destruct (Z.eq_dec x i), (decide (x = i)); congruence.
Qed.

Lemma blocks_cons (k s n : nat) :
  blocks k s (S n) = (replicate k (Z.of_nat s) ++ blocks k (S s) n)%list.
Proof. reflexivity. Qed.

Lemma length_blocks (k s n : nat) : length (blocks k s n) = (n * k)%nat.
Proof.
  revert s. induction n as [|n IH]; intros s; [reflexivity|].
  rewrite blocks_cons, length_app, length_replicate, IH. lia.
Qed.

Lemma elem_of_blocks (k s n : nat) (z : Z) :
  z ∈ blocks k s n → Z.of_nat s ≤ z < Z.of_nat (s + n).
Proof.
  unfold blocks. rewrite list_elem_of_bind. intros (y & Hz & Hy).
  apply elem_of_replicate_inv in Hz. subst z.
  apply list_elem_of_fmap in Hy as (j & -> & Hj).
  apply elem_of_seq in Hj. lia.
Qed.

Lemma occurrences_absent (i : Z) (l : list Z) : i ∉ l → occurrences i l = 0%nat.
Proof.
  intros Hni. unfold occurrences. apply count_occ_not_In.
  rewrite <- list_elem_of_In. exact Hni.
Qed.

Lemma elem_of_take_list {A} (x : A) (m : nat) (l : list A) : x ∈ take m l → x ∈ l.
Proof.
  rewrite elem_of_take. intros (j & Hj & _). eapply list_elem_of_lookup_2, Hj.
Qed.

(** Cutting the repeated blocks after [m] entries leaves the [i]-th block
    with what is left of [m] once the blocks before it are paid for. *)
Lemma occurrences_take_blocks (k n s m i : nat) :
  (s ≤ i < s + n)%nat →
  occurrences (Z.of_nat i) (take m (blocks k s n)) = Nat.min k (m - (i - s) * k).
Proof.
  revert s m. induction n as [|n IH]; intros s m Hi; [lia|].
  rewrite blocks_cons, take_app, length_replicate, take_replicate.
  unfold occurrences. rewrite count_occ_app.
  fold (occurrences (Z.of_nat i) (replicate (m `min` k) (Z.of_nat s))).
  fold (occurrences (Z.of_nat i) (take (m - k) (blocks k (S s) n))).
  rewrite occurrences_replicate.
  destruct (decide (Z.of_nat s = Z.of_nat i)) as [Heq|Hne].
  - apply Nat2Z.inj in Heq. subst i.
    rewrite occurrences_absent.
    + replace (s - s)%nat with 0%nat by lia. lia.
    + intros Hin%elem_of_take_list%elem_of_blocks. lia.
  - assert (S s ≤ i < S s + n)%nat as Hi' by lia.
    rewrite (IH (S s) (m - k)%nat Hi').
    replace (i - s)%nat with (S (i - S s)) by lia. lia.
Qed.

Lemma unshuffled_schedule_run (n : nat) (C : Z) :
  (1 ≤ n)%nat → 0 ≤ C →
  unshuffled_schedule n C
  = Ok (take (Z.to_nat C) (blocks (Z.to_nat (C `div` Z.of_nat n + 1)) 0 n)).
Proof.
  intros Hn HC. unfold unshuffled_schedule, floordiv.
  rewrite decide_False by lia. cbn.
  assert (0 ≤ C `div` Z.of_nat n) by (apply Z.div_pos; lia).
  unfold np_repeat.
  destruct (Z.ltb_spec (C `div` Z.of_nat n + 1) 0) as [?|_]; [lia|].
  cbn. unfold py_slice_to. destruct (Z.leb_spec 0 C) as [_|?]; [|lia].
  reflexivity.
Qed.

Lemma unshuffled_schedule_shape (n : nat) (C : Z) :
  (1 ≤ n)%nat → 0 ≤ C →
  schedule_shape n C
    (take (Z.to_nat C) (blocks (Z.to_nat (C `div` Z.of_nat n + 1)) 0 n)).
Proof.
  intros Hn HC.
  assert (0 ≤ C `div` Z.of_nat n) as Hr by (apply Z.div_pos; lia).
  assert (C < Z.of_nat n * (C `div` Z.of_nat n + 1)) as Hgt
    by (apply (Z.mul_succ_div_gt C (Z.of_nat n)); lia).
  set (r := C `div` Z.of_nat n) in *.
  split; [|split].
  - rewrite length_take, length_blocks. nia.
  - intros z Hz. apply elem_of_take_list, elem_of_blocks in Hz. lia.
  - intros i Hi. rewrite <- (Z2Nat.id i) at 1 by lia.
    rewrite occurrences_take_blocks by lia.
    rewrite Nat.sub_0_r. nia.
Qed.

Lemma schedule_shape_perm (n : nat) (C : Z) (l l' : list Z) :
  l' ≡ₚ l → schedule_shape n C l → schedule_shape n C l'.
Proof.
  intros Hp (Hlen & Hin & Hocc). split; [|split].
  - rewrite Hp. exact Hlen.
  - intros z Hz. rewrite Hp in Hz. apply Hin, Hz.
  - intros i Hi. rewrite <- (Hocc i Hi). unfold occurrences.
    f_equal. apply Permutation_count_occ. exact Hp.
Qed.

(** The schedule block, statement by statement. *)
Lemma build_schedules_outcome (n_train n_test : nat) (C : Z)
    (batch_seed : option Z) (s : State) :
  match unshuffled_schedule n_train C, unshuffled_schedule n_test C with
  | Ok bt, Ok bs =>
      ∃ s', build_schedules n_train n_test C batch_seed s = (Ok tt, s') ∧
            batch_idx_train (self s') = NdArray (sk_shuffle (default 1 batch_seed) bt) ∧
            batch_idx_test (self s') = NdArray (sk_shuffle (default 1 batch_seed) bs) ∧
            world s' = world s
  | Ok _, Raise e | Raise e, _ =>
      ∃ s', build_schedules n_train n_test C batch_seed s = (Raise e, s')
  end.
Proof.
  unfold build_schedules. mrun.
  destruct (unshuffled_schedule n_train C) as [bt|e]; [|eauto].
  cbn [self world].
  destruct (unshuffled_schedule n_test C) as [bs|e]; [|eauto].
  cbn [self world]. eexists. split; [reflexivity|].
  destruct (self s); cbn. auto.
Qed.

(** Index 2 of a partition of three is left out of a schedule of four
    cycles, whatever the shuffle. *)
Lemma schedule_three_four_misses_two (batch_seed : option Z) (s : State) :
  ∃ s' bt,
    build_schedules 3 3 4 batch_seed s = (Ok tt, s') ∧
    batch_idx_train (self s') = NdArray bt ∧
    occurrences 2 bt = 0%nat.
Proof.
  pose proof (build_schedules_outcome 3 3 4 batch_seed s) as Hrun.
  cbn in Hrun. destruct Hrun as (s' & Hrun & Hbt & _).
  exists s', (sk_shuffle (default 1 batch_seed) [0; 0; 1; 1]).
  split; [exact Hrun|]. split; [exact Hbt|].
  unfold occurrences.
  rewrite (proj1 (Permutation_count_occ Z.eq_dec _ _) (sk_shuffle_perm _ _)).
  reflexivity.
Qed.

(** C2 (as the code has it): for partitions of size at least 1 and at least
    one cycle, both schedules built in [fit] have exactly [C] entries, all
    of them indices of their partition, and index [i] occurs
    min (r + 1, max (0, C - i * (r + 1))) times with r = C // n: never more
    than floor(C/n) + 1 times, but the last indices fewer than floor(C/n)
    times, down to none, since [repeat] writes each index r + 1 times in a
    row before the cut. *)
Theorem schedule_length_and_counts (n_train n_test : nat) (C : Z)
    (batch_seed : option Z) (s : State) :
  (1 ≤ n_train)%nat → (1 ≤ n_test)%nat → 1 ≤ C →
  ∃ s' bt bs,
    build_schedules n_train n_test C batch_seed s = (Ok tt, s') ∧
    batch_idx_train (self s') = NdArray bt ∧
    batch_idx_test (self s') = NdArray bs ∧
    schedule_shape n_train C bt ∧
    schedule_shape n_test C bs.
Proof.
  intros Htrain Htest HC.
  pose proof (build_schedules_outcome n_train n_test C batch_seed s) as Hrun.
  rewrite !unshuffled_schedule_run in Hrun by lia.
  destruct Hrun as (s' & Hrun & Hbt & Hbs & _).
  eexists s', _, _. split; [exact Hrun|].
  split; [exact Hbt|]. split; [exact Hbs|].
  split; (eapply schedule_shape_perm; [apply sk_shuffle_perm|]);
    apply unshuffled_schedule_shape; lia.
Qed.

(** ** Final evaluation *)







Lemma py_index_in_range {A} (l : list A) (i : Z) :
  0 ≤ i < Z.of_nat (length l) → ∃ x, py_index l i = Ok x.
Proof.
  intros Hi. unfold py_index.
  destruct (Z.ltb_spec i 0) as [?|_]; [lia|].
  destruct (Z.ltb_spec i 0) as [?|_]; [lia|].
  destruct (lookup_lt_is_Some_2 l (Z.to_nat i)) as [x ->]; [lia|eauto].
Qed.





(** ** Two runs *)

(** A trainer constructed in any world starts from the same attributes and
    the generator seeded with 1. *)
Lemma init_seeds_generator (s : State) :
  ∃ s', __init__ s = (Ok tt, s') ∧
        self s' = fresh_trainer ∧ rng (world s') = seed_rng 1.
Proof. eexists. split; [reflexivity|]. split; reflexivity. Qed.

End Properties.

(** * Further properties of the methods *)

Section Further.
Context `{B : Backend}.

Abbreviation Snapshot := (list (string * Param)).
Abbreviation Data := (Array Plane).
Abbreviation Item := (Sample Plane).

#[local] Existing Instance M_ret.
#[local] Existing Instance M_bind.


(** X1: called as a bound method, whatever the number of further arguments,
    [preprocess_training_image_data] raises [TypeError]: with any number
    but three the call does not bind, and with three the object takes the
    place of the training images and fails the array test. *)
Theorem preprocess_bound_call_raises (args : list pyval) :
  (bind_positional preprocess_parameters (VTrainer :: args) ≫= apply_preprocess)
  = Raise TypeError.
Proof.
  destruct args as [|a1 [|a2 [|a3 [|a4 args]]]]; reflexivity.
Qed.

Lemma isinstance_inv (r : repr) (v : pyval) :
  isinstance r v = true → ∃ a, v = VArray a ∧ a_repr a = r.
Proof.
  destruct v as [|a| |]; cbn; try discriminate.
  destruct (a_repr a) eqn:Ha, r; try discriminate; eauto.
Qed.

(** X2: when [preprocess_training_image_data] returns, its four inputs were
    arrays of one common representation, the class count is the one
    inferred from the training labels, both image tensors are floating,
    both label tensors are integer exactly when the class count exceeds 1
    (floating otherwise), and numpy inputs come back as torch tensors. *)
Theorem preprocess_ok_inv (x l xt lt : pyval) (x' l' xt' lt' : Data) (k : Z) :
  preprocess_training_image_data x l xt lt = Ok (x', l', xt', lt', k) →
  ∃ X L XT LT rep,
    x = VArray X ∧ l = VArray L ∧ xt = VArray XT ∧ lt = VArray LT ∧
    a_repr X = rep ∧ a_repr L = rep ∧ a_repr XT = rep ∧ a_repr LT = rep ∧
    num_classes_from_labels L = Ok k ∧
    a_dtype x' = Float ∧ a_dtype xt' = Float ∧
    a_dtype l' = (if Z.ltb 1 k then Long else Float) ∧
    a_dtype lt' = (if Z.ltb 1 k then Long else Float) ∧
    (rep = NumPy →
     a_repr x' = Torch ∧ a_repr l' = Torch ∧ a_repr xt' = Torch ∧ a_repr lt' = Torch).
Proof.
  unfold preprocess_training_image_data. cbn [forallb].
  destruct (isinstance NumPy x && _) eqn:Hnp.
  - apply andb_prop in Hnp as [H1 Hnp]. apply andb_prop in Hnp as [H2 Hnp].
    apply andb_prop in Hnp as [H3 Hnp]. apply andb_prop in Hnp as [H4 _].
    apply isinstance_inv in H1 as (X & -> & HX), H2 as (L & -> & HL),
      H3 as (XT & -> & HXT), H4 as (LT & -> & HLT).
    cbn. destruct (num_classes_from_labels L) as [k0|] eqn:Hk; [|discriminate].
    cbn. destruct (check_image_dims X L XT LT k0) as [[[[X1 L1] XT1] LT1]|]; [|discriminate].
    cbn. intros [= <- <- <- <- <-].
    exists X, L, XT, LT, NumPy. cbn. auto 20.
  - destruct (isinstance Torch x && _) eqn:Htc; [|discriminate].
    apply andb_prop in Htc as [H1 Htc]. apply andb_prop in Htc as [H2 Htc].
    apply andb_prop in Htc as [H3 Htc]. apply andb_prop in Htc as [H4 _].
    apply isinstance_inv in H1 as (X & -> & HX), H2 as (L & -> & HL),
      H3 as (XT & -> & HXT), H4 as (LT & -> & HLT).
    cbn. destruct (num_classes_from_labels L) as [k0|] eqn:Hk; [|discriminate].
    cbn. destruct (check_image_dims X L XT LT k0) as [[[[X1 L1] XT1] LT1]|]; [|discriminate].
    cbn. intros [= <- <- <- <- <-].
    exists X, L, XT, LT, Torch. cbn. repeat split; auto; discriminate.
Qed.


Lemma py_index_spec {A} (l : list A) (i : Z) :
  let n := Z.of_nat (length l) in
  (0 ≤ i < n → py_index l i = from_option Ok (Raise IndexError) (l !! Z.to_nat i)
               ∧ is_Some (l !! Z.to_nat i)) ∧
  (- n ≤ i < 0 → py_index l i = py_index l (i + n)) ∧
  (i < - n ∨ n ≤ i → py_index l i = Raise IndexError).
Proof.
  cbn. unfold py_index. repeat split.
  - destruct (Z.ltb_spec i 0) as [?|_]; [lia|].
    destruct (Z.ltb_spec i 0) as [?|_]; [lia|].
    destruct (l !! Z.to_nat i); reflexivity.
  - apply lookup_lt_is_Some_2. lia.
  - intros Hi. destruct (Z.ltb_spec i 0) as [_|?]; [|lia].
    destruct (Z.ltb_spec (i + Z.of_nat (length l)) 0) as [?|_]; [lia|].
    destruct (Z.ltb_spec (i + Z.of_nat (length l)) 0) as [?|_]; [lia|].
    reflexivity.
  - intros [Hi|Hi].
    + destruct (Z.ltb_spec i 0) as [_|?]; [|lia].
      destruct (Z.ltb_spec (i + Z.of_nat (length l)) 0) as [_|?]; [reflexivity|lia].
    + destruct (Z.ltb_spec i 0) as [?|_]; [lia|].
      destruct (Z.ltb_spec i 0) as [?|_]; [lia|].
      rewrite lookup_ge_None_2 by lia. reflexivity.
Qed.

Lemma py_index_ok_iff {A} (l : list A) (i : Z) :
  is_Ok (py_index l i) ↔ - Z.of_nat (length l) ≤ i < Z.of_nat (length l).
Proof.
  pose proof (py_index_spec l i) as (Hin & Hneg & Hout). cbn in *.
  split.
  - intros Hok.
    destruct (decide (- Z.of_nat (length l) ≤ i < Z.of_nat (length l))) as [|Hn];
      [assumption|].
    rewrite Hout in Hok by lia. destruct Hok.
  - intros Hi. destruct (decide (0 ≤ i)) as [Hp|Hp].
    + destruct Hin as [-> [x ->]]; [lia|]. exact I.
    + rewrite Hneg by lia.
      destruct (py_index_in_range l (i + Z.of_nat (length l))) as [x ->]; [lia|].
      exact I.
Qed.

(** X3: with the data of the chosen mode bound and as many labels as images
    ([n] of each), for an index [b] that fits a 64-bit integer:
    [dataloader] succeeds exactly for -n <= b < n, raises [IndexError] for
    every other such index, and a negative index [b] returns what [b + n]
    returns. *)
Theorem dataloader_index_bounds (t : Trainer) (X y : Data) (b : Z) (mode : string) :
  (if decide (mode = "test") then X_test t = Some X ∧ y_test t = Some y
   else X_train t = Some X ∧ y_train t = Some y) →
  len X = len y →
  - 2 ^ 63 ≤ b < 2 ^ 63 →
  let n := Z.of_nat (len X) in
  (is_Ok (dataloader t b mode) ↔ - n ≤ b < n) ∧
  (b < - n ∨ n ≤ b → dataloader t b mode = Raise IndexError) ∧
  (- n ≤ b < 0 → dataloader t b mode = dataloader t (b + n) mode).
Proof.
  intros Hattr Hlen _ n.
  assert (∀ i, dataloader t i mode =
    (x ← py_index (a_data X) i;
     ys ← py_index (a_data y) i;
     Ok (py_slice_to (batch_size t) x, py_slice_to (batch_size t) ys))) as Heq.
  { intros i. rewrite dataloader_unfold.
    destruct (decide (mode = "test")); destruct Hattr as [-> ->]; reflexivity. }
  pose proof (py_index_ok_iff (a_data X) b) as HX.
  pose proof (py_index_ok_iff (a_data y) b) as Hy.
  pose proof (py_index_spec (a_data X) b) as (_ & HXneg & HXout).
  pose proof (py_index_spec (a_data y) b) as (_ & Hyneg & Hyout).
  unfold len in *. fold (len X) in *. cbn in HXneg, HXout, Hyneg, Hyout.
  rewrite <- Hlen in Hy, Hyneg, Hyout. subst n. unfold len.
  split; [|split].
  - rewrite Heq. split.
    + intros Hok. apply HX.
      destruct (py_index (a_data X) b); [exact I|destruct Hok].
    + intros Hb. apply HX in Hb as HbX. apply Hy in Hb as Hby.
      destruct (py_index (a_data X) b); [|destruct HbX].
      destruct (py_index (a_data y) b); [|destruct Hby]. exact I.
  - intros Hb. rewrite Heq, HXout by exact Hb. reflexivity.
  - intros Hb. rewrite !Heq, HXneg, Hyneg by exact Hb. reflexivity.
Qed.

Lemma length_py_slice_to {A} (k : Z) (l : list A) :
  length (py_slice_to k l) =
  if Z.leb 0 k then Nat.min (Z.to_nat k) (length l)
  else (length l - Z.to_nat (- k))%nat.
Proof.
  unfold py_slice_to. destruct (Z.leb 0 k); rewrite length_take; lia.
Qed.

(** X4: the pair [dataloader] returns is cut from the front of the sample
    (and of the label) at [b]: its first min (batch_size, channels) planes,
    in their order, for a batch size of 0 or more; all but its last
    |batch_size| planes for a negative one; and the whole sample (and whole
    label) as soon as the batch size reaches the number of planes. *)
Theorem dataloader_batch_size_bound (t : Trainer) (X y : Data) (b : Z)
    (mode : string) (features targets : Item) :
  (if decide (mode = "test") then X_test t = Some X ∧ y_test t = Some y
   else X_train t = Some X ∧ y_train t = Some y) →
  dataloader t b mode = Ok (features, targets) →
  ∃ x ys,
    py_index (a_data X) b = Ok x ∧ py_index (a_data y) b = Ok ys ∧
    (0 ≤ batch_size t →
     features = take (Z.to_nat (batch_size t)) x ∧
     targets = take (Z.to_nat (batch_size t)) ys ∧
     length features = Nat.min (Z.to_nat (batch_size t)) (length x) ∧
     length targets = Nat.min (Z.to_nat (batch_size t)) (length ys)) ∧
    (batch_size t < 0 →
     features = take (length x - Z.to_nat (- batch_size t)) x ∧
     targets = take (length ys - Z.to_nat (- batch_size t)) ys ∧
     length features = (length x - Z.to_nat (- batch_size t))%nat ∧
     length targets = (length ys - Z.to_nat (- batch_size t))%nat) ∧
    (Z.of_nat (length x) ≤ batch_size t → features = x) ∧
    (Z.of_nat (length ys) ≤ batch_size t → targets = ys).
Proof.
  intros Hattr Hret.
  rewrite dataloader_unfold in Hret.
  destruct (decide (mode = "test")); destruct Hattr as [HX Hy];
    cbn zeta in Hret; rewrite HX, Hy in Hret; cbn [subscript_attr] in Hret.
  all: destruct (py_index (a_data X) b) as [x|]; [|discriminate].
  all: destruct (py_index (a_data y) b) as [ys|]; [|discriminate].
  all: cbn in Hret; injection Hret as <- <-.
  all: exists x, ys.
  all: split; [reflexivity|]; split; [reflexivity|].
  all: split; [intros Hb; rewrite !length_py_slice_to; unfold py_slice_to;
               destruct (Z.leb_spec 0 (batch_size t)); [auto|lia]|].
  all: split; [intros Hb; rewrite !length_py_slice_to; unfold py_slice_to;
               destruct (Z.leb_spec 0 (batch_size t)); [lia|auto]|].
  all: split; intros Hb; unfold py_slice_to;
    (destruct (Z.leb_spec 0 (batch_size t)); [|lia]); apply take_ge; lia.
Qed.

Lemma select_loss_cases (loss : loss_arg) (nb : option Z) :
  select_loss loss nb =
  match loss with
  | LossCallable f => Ok (UserLoss f)
  | LossToken s =>
      if decide (s = "ce") then
        match nb with
        | None => Raise ValueError
        | Some k =>
            if decide (k = 1) then Ok BCEWithLogitsLoss
            else if decide (2 < k) then Ok CrossEntropyLoss
            else Raise NotImplementedError
        end
      else if decide (s = "mse") then Ok MSELoss
      else Raise NotImplementedError
  end.
Proof.
  unfold select_loss. destruct loss as [s|f]; [|reflexivity]. cbn.
  destruct (decide (s = "ce")) as [->|Hce].
  - cbn. destruct nb as [k|]; [|reflexivity]. cbn.
    destruct (decide (k = 1)) as [->|H1]; [reflexivity|].
    rewrite (bool_decide_eq_false_2 (k = 1)) by exact H1. cbn.
    destruct (decide (2 < k)) as [H2|H2].
    + rewrite (bool_decide_eq_true_2 (2 < k)) by exact H2. reflexivity.
    + rewrite (bool_decide_eq_false_2 (2 < k)) by exact H2. reflexivity.
  - rewrite (bool_decide_eq_false_2 (s = "ce")) by exact Hce. cbn.
    destruct (decide (s = "mse")) as [->|Hmse]; [reflexivity|].
    rewrite (bool_decide_eq_false_2 (s = "mse")) by exact Hmse. reflexivity.
Qed.

Ltac settle :=
  repeat split; intros;
  repeat match goal with
  | H : False |- _ => destruct H
  | H : _ ∨ _ |- _ => destruct H
  | H : _ ∧ _ |- _ => destruct H
  | H : ∃ _, _ |- _ => destruct H
  | H : Some _ = Some _ |- _ => injection H as H
  | H : LossToken _ = LossToken _ |- _ => injection H as H
  | H : Raise _ = Raise _ |- _ => injection H as H
  end; subst; try discriminate; try congruence; try lia; try exact I; eauto 10.

(** X6: [select_loss] returns a loss exactly for a callable, for "mse", and
    for "ce" with a class count of 1 or above 2; it raises [ValueError]
    exactly for "ce" without a class count, and [NotImplementedError]
    exactly for a string other than "ce" and "mse" and for "ce" with a class
    count that is neither 1 nor above 2 (so also 0, 2 or a negative count);
    it raises nothing else. *)
Theorem select_loss_ok_iff (loss : loss_arg) (nb : option Z) :
  (is_Ok (select_loss loss nb) ↔
   (∃ f, loss = LossCallable f) ∨ loss = LossToken "mse" ∨
   (loss = LossToken "ce" ∧ ∃ k, nb = Some k ∧ (k = 1 ∨ 2 < k))) ∧
  (select_loss loss nb = Raise ValueError ↔ loss = LossToken "ce" ∧ nb = None) ∧
  (select_loss loss nb = Raise NotImplementedError ↔
   (∃ s, loss = LossToken s ∧ s ≠ "ce" ∧ s ≠ "mse") ∨
   (loss = LossToken "ce" ∧ ∃ k, nb = Some k ∧ k ≠ 1 ∧ k ≤ 2)) ∧
  (∀ x, select_loss loss nb = Raise x →
        x = ValueError ∨ x = NotImplementedError).
Proof.
  rewrite select_loss_cases. destruct loss as [s|f].
  2: { cbn. settle. }
  destruct (decide (s = "ce")) as [->|Hce].
  - destruct nb as [k|].
    + destruct (decide (k = 1)) as [->|H1]; [cbn; settle|].
      destruct (decide (2 < k)) as [H2|H2]; cbn; settle.
      right. split; [reflexivity|]. exists k. split; [reflexivity|]. lia.
    + cbn. settle.
  - destruct (decide (s = "mse")) as [->|Hmse]; cbn; settle.
Qed.

(** X7: the index array of the schedule on the edges: an empty partition is
    a [ZeroDivisionError]; a cycle count below [-n] a [ValueError] (numpy
    refuses the negative repeat count); a cycle count from [-n] to 0 an
    empty schedule. *)
Theorem unshuffled_schedule_edges (n : nat) (C : Z) :
  (n = 0%nat → unshuffled_schedule n C = Raise ZeroDivisionError) ∧
  ((1 ≤ n)%nat → C < - Z.of_nat n → unshuffled_schedule n C = Raise ValueError) ∧
  ((1 ≤ n)%nat → - Z.of_nat n ≤ C ≤ 0 → unshuffled_schedule n C = Ok []).
Proof.
  unfold unshuffled_schedule, floordiv. split; [|split].
  - intros ->. reflexivity.
  - intros Hn HC. rewrite decide_False by lia. cbn.
    assert (C `div` Z.of_nat n + 1 < 0) as Hr.
    { assert (C `div` Z.of_nat n < -1); [|lia].
      apply Z.div_lt_upper_bound; lia. }
    unfold np_repeat. destruct (Z.ltb_spec (C `div` Z.of_nat n + 1) 0); [reflexivity|lia].
  - intros Hn HC. rewrite decide_False by lia. cbn.
    destruct (decide (C = 0)) as [->|Hne].
    + rewrite Z.div_0_l by lia. cbn. reflexivity.
    + assert (C `div` Z.of_nat n = -1) as ->.
      { symmetry. apply (Z.div_unique_pos C (Z.of_nat n) (-1) (C + Z.of_nat n)); lia. }
      change (-1 + 1) with 0. unfold np_repeat. cbn [Z.ltb Z.compare mbind result_bind].
      assert (∀ l : list Z, (l ≫= λ x : Z, replicate (Z.to_nat 0) x) = []) as ->.
      { intros l. induction l as [|a l IH]; [reflexivity|exact IH]. }
      unfold py_slice_to. destruct (Z.leb 0 C); rewrite take_nil; reflexivity.
Qed.

Lemma blocks_one (s n : nat) : blocks 1 s n = Z.of_nat <$> seq s n.
Proof.
  revert s. induction n as [|n IH]; intros s; [reflexivity|].
  rewrite blocks_cons, IH. reflexivity.
Qed.

Lemma seqZ_nat (m : nat) : seqZ 0 (Z.of_nat m) = Z.of_nat <$> seq 0 m.
Proof.
  unfold seqZ. rewrite Nat2Z.id. apply list_fmap_ext. intros _ i _. lia.
Qed.

(** X8: with fewer cycles than training samples, the training schedule is a
    permutation of 0, ..., C-1: the run draws each of the first [C] samples
    once and none of the others. *)
Theorem schedule_short_run_prefix (n_train n_test : nat) (C : Z)
    (batch_seed : option Z) (s : State) :
  (1 ≤ n_test)%nat → 1 ≤ C < Z.of_nat n_train →
  ∃ s' bt,
    build_schedules n_train n_test C batch_seed s = (Ok tt, s') ∧
    batch_idx_train (self s') = NdArray bt ∧
    bt ≡ₚ seqZ 0 C.
Proof.
  intros Htest HC.
  pose proof (build_schedules_outcome n_train n_test C batch_seed s) as Hrun.
  rewrite !unshuffled_schedule_run in Hrun by lia.
  destruct Hrun as (s' & Hrun & Hbt & _).
  eexists s', _. split; [exact Hrun|]. split; [exact Hbt|].
  rewrite sk_shuffle_perm, Z.div_small by lia.
  change (Z.to_nat (0 + 1)) with 1%nat. rewrite blocks_one.
  rewrite <- fmap_take, take_seq, Nat.min_l by lia.
  rewrite <- seqZ_nat, Z2Nat.id by lia. reflexivity.
Qed.

Lemma batch_idx_set_train (v : IdxSeq) (t : Trainer) :
  batch_idx_train (set_batch_idx_train v t) = v ∧
  batch_idx_test (set_batch_idx_train v t) = batch_idx_test t.
Proof. destruct t; split; reflexivity. Qed.

(** X9: with an empty test partition the schedule block raises
    [ZeroDivisionError] after it has already replaced [batch_idx_train] by
    the unshuffled index array; [batch_idx_test] keeps its old value. *)
Theorem build_schedules_partial_update (n_train : nat) (C : Z)
    (batch_seed : option Z) (s : State) :
  (1 ≤ n_train)%nat → 0 ≤ C →
  ∃ s',
    build_schedules n_train 0 C batch_seed s = (Raise ZeroDivisionError, s') ∧
    batch_idx_train (self s') =
      NdArray (take (Z.to_nat C) (blocks (Z.to_nat (C `div` Z.of_nat n_train + 1)) 0 n_train)) ∧
    batch_idx_test (self s') = batch_idx_test (self s) ∧
    world s' = world s.
Proof.
  intros Hn HC. unfold build_schedules. mrun.
  rewrite unshuffled_schedule_run by lia. cbn [self world].
  eexists. split; [reflexivity|]. cbn [self world].
  pose proof (batch_idx_set_train
    (NdArray (take (Z.to_nat C) (blocks (Z.to_nat (C `div` Z.of_nat n_train + 1)) 0 n_train)))
    (self s)) as [-> ->]. auto.
Qed.




Lemma copy_into_unique (k : string) (v v' : Param) (pre ps : Snapshot) (tr : bool) :
  k ∉ pre.*1 → k ∉ ps.*1 →
  copy_into k v' (mkNet (pre ++ (k, v) :: ps)%list tr) = mkNet (pre ++ (k, v') :: ps)%list tr.
Proof.
  intros Hpre Hps. unfold copy_into. cbn [params training]. f_equal.
  rewrite fmap_app, fmap_cons. cbn [fst]. rewrite decide_True by reflexivity.
  f_equal; [|f_equal].
  - clear Hps. induction pre as [|[k0 v0] pre IH]; [reflexivity|].
    rewrite fmap_cons in Hpre. cbn [fst] in Hpre. apply not_elem_of_cons in Hpre as [Hne Hpre].
    rewrite fmap_cons. cbn [fst]. rewrite decide_False by congruence.
    rewrite IH by exact Hpre. reflexivity.
  - clear Hpre. induction ps as [|[k0 v0] ps IH]; [reflexivity|].
    rewrite fmap_cons in Hps. cbn [fst] in Hps. apply not_elem_of_cons in Hps as [Hne Hps].
    rewrite fmap_cons. cbn [fst]. rewrite decide_False by congruence.
    rewrite IH by exact Hps. reflexivity.
Qed.

Lemma perturb_params_net (std : F) (pre ps : Snapshot) (tr : bool) (s : State)
    (noises : list Param) (r' : Rng) :
  net (self s) = Some (mkNet (pre ++ ps)%list tr) →
  NoDup ((pre ++ ps)%list.*1) →
  draws std ps (rng (world s)) = Ok (noises, r') →
  net (self (for_each ps (perturb_param std) s).2)
  = Some (mkNet (pre ++ perturbed ps noises)%list tr).
Proof.
  revert pre s noises. induction ps as [|[k v] ps IH]; intros pre s noises Hnet Hnd Hd.
  - cbn in Hd. injection Hd as <- <-. cbn. rewrite Hnet. reflexivity.
  - rewrite draws_cons in Hd. rewrite for_each_cons, perturb_param_run.
    cbn [fst snd] in *.
    destruct (normal_ (rng (world s)) v std) as [[noise r1]|x]; [|discriminate].
    destruct (draws std ps r1) as [[ns r2]|x] eqn:Hd'; [|discriminate].
    injection Hd as <- <-.
    rewrite fmap_app, fmap_cons in Hnd. cbn [fst] in Hnd.
    apply NoDup_app in Hnd as (Hnd1 & Hdisj & Hnd2).
    apply NoDup_cons in Hnd2 as [Hk Hnd2].
    assert (k ∉ pre.*1) as Hkpre.
    { intros Hin. apply (Hdisj k Hin). left. }
    rewrite Hnet. cbn [fmap option_fmap option_map].
    rewrite (copy_into_unique k v (padd v noise) pre ps tr Hkpre Hk).
    match goal with |- context [for_each ps _ ?s0] =>
      specialize (IH (pre ++ [(k, padd v noise)])%list s0 ns) end.
    cbn [self world rng] in IH. rewrite net_set_net, <- app_assoc in IH.
    cbn [app] in IH. specialize (IH eq_refl).
    rewrite IH.
    + unfold perturbed. cbn [zip_with fst snd]. rewrite <- app_assoc. reflexivity.
    + rewrite fmap_app, fmap_cons. cbn [fst].
      apply NoDup_app. split; [exact Hnd1|]. split; [exact Hdisj|].
      apply NoDup_cons. split; assumption.
    + exact Hd'.
Qed.

Lemma length_draws (std : F) (ps : Snapshot) (r r' : Rng) (noises : list Param) :
  draws std ps r = Ok (noises, r') → length noises = length ps.
Proof.
  revert r noises. induction ps as [|kv ps IH]; intros r noises Hd.
  - cbn in Hd. injection Hd as <- <-. reflexivity.
  - rewrite draws_cons in Hd.
    destruct (normal_ r kv.2 std) as [[noise r1]|x]; [|discriminate].
    destruct (draws std ps r1) as [[ns r2]|x] eqn:Hd'; [|discriminate].
    injection Hd as <- <-. cbn [length]. f_equal. exact (IH r1 ns Hd').
Qed.

(** A draw that fails ends the loop with the draw's exception. *)
Lemma perturb_params_raise (std : F) (ps : Snapshot) (s : State) (x : exn) :
  draws std ps (rng (world s)) = Raise x →
  ∃ s', for_each ps (perturb_param std) s = (Raise x, s').
Proof.
  revert s. induction ps as [|kv ps IH]; intros s Hd; [discriminate|].
  rewrite draws_cons in Hd. rewrite for_each_cons, perturb_param_run.
  destruct (normal_ (rng (world s)) kv.2 std) as [[noise r1]|x1].
  - destruct (draws std ps r1) as [[ns r2]|x2] eqn:Hd'; [discriminate|].
    injection Hd as ->. apply IH. exact Hd'.
  - injection Hd as ->. eauto.
Qed.

(** X10: on a cycle with (e + 1) mod e_p = 0, with a dict setting, a bound
    network and distinct parameter names: when the variance
    a / (1 + e) ** gamma can be computed and every draw succeeds,
    [weight_perturbation] replaces every parameter [v] by [v + noise], the
    noise tensors drawn one per parameter, in order, from the generator with
    standard deviation the square root of the variance, and keeps the mode
    flag of the network; when the power or the quotient raises, the call
    raises the same exception and changes nothing; when a draw raises, the
    call raises the same exception. *)
Theorem weight_perturbation_adds_noise (a gamma : F) (e_p e : Z) (n : Net) (s : State) :
  perturb_weights (self s) = PW_dict a gamma e_p →
  net (self s) = Some n →
  NoDup (params n).*1 →
  e_p ≠ 0 → (e + 1) `mod` e_p = 0 →
  (∀ p var noises r',
     py_pow (1 + e) gamma = Ok p →
     py_truediv a p = Ok var →
     draws (fsqrt var) (params n) (rng (world s)) = Ok (noises, r') →
     ∃ s',
       weight_perturbation e s = (Ok tt, s') ∧
       net (self s') = Some (mkNet (perturbed (params n) noises) (training n)) ∧
       length noises = length (params n) ∧
       log (world s') = (log (world s) ++ (EvNormal <$> noises))%list ∧
       rng (world s') = r') ∧
  (∀ x, py_pow (1 + e) gamma = Raise x →
        weight_perturbation e s = (Raise x, s)) ∧
  (∀ p x, py_pow (1 + e) gamma = Ok p → py_truediv a p = Raise x →
          weight_perturbation e s = (Raise x, s)) ∧
  (∀ p var x,
     py_pow (1 + e) gamma = Ok p →
     py_truediv a p = Ok var →
     draws (fsqrt var) (params n) (rng (world s)) = Raise x →
     ∃ s', weight_perturbation e s = (Raise x, s')).
Proof.
  intros Hpw Hnet Hnd Hp Hmod.
  assert (∀ p var, py_pow (1 + e) gamma = Ok p → py_truediv a p = Ok var →
            weight_perturbation e s
            = for_each (params n) (perturb_param (fsqrt var)) s) as Hon.
  { intros p var Hpow Hdiv. unfold weight_perturbation. mrun.
    rewrite Hpw. rewrite decide_False by assumption.
    rewrite decide_True by assumption. rewrite Hpow, Hdiv, Hnet. reflexivity. }
  split; [|split; [|split]].
  - intros p var noises r' Hpow Hdiv Hd. rewrite (Hon p var Hpow Hdiv).
    destruct (perturb_params_run (fsqrt var) (params n) s noises r')
      as (s' & Hrun & _ & Hlog & Hrng & _).
    { rewrite Hnet. eauto. }
    { exact Hd. }
    exists s'. split; [exact Hrun|].
    split; [|split; [exact (length_draws _ _ _ _ _ Hd)|split; assumption]].
    pose proof (perturb_params_net (fsqrt var) [] (params n) (training n) s noises r') as Hn'.
    cbn [app] in Hn'. rewrite Hrun in Hn'. apply Hn'; [|exact Hnd|exact Hd].
    rewrite Hnet. destruct n; reflexivity.
  - intros x Hpow. unfold weight_perturbation. mrun.
    rewrite Hpw. rewrite decide_False by assumption.
    rewrite decide_True by assumption. rewrite Hpow. reflexivity.
  - intros p x Hpow Hdiv. unfold weight_perturbation. mrun.
    rewrite Hpw. rewrite decide_False by assumption.
    rewrite decide_True by assumption. rewrite Hpow, Hdiv. reflexivity.
  - intros p var x Hpow Hdiv Hd. rewrite (Hon p var Hpow Hdiv).
    apply perturb_params_raise. exact Hd.
Qed.

Lemma for_each_app {A} (l1 l2 : list A) (body : A → M unit) (s : State) :
  for_each (l1 ++ l2) body s =
  match for_each l1 body s with
  | (Ok _, s') => for_each l2 body s'
  | (Raise e, s') => (Raise e, s')
  end.
Proof.
  revert s. induction l1 as [|x l1 IH]; intros s; [reflexivity|].
  cbn [app]. rewrite !for_each_cons.
  destruct (body x s) as [[[]|e] s1]; [apply IH|reflexivity].
Qed.









Lemma proj_set_running_weights (v : gmap Z Snapshot) (t : Trainer) :
  running_weights (set_running_weights v t) = v ∧
  net (set_running_weights v t) = net t ∧
  training_cycles (set_running_weights v t) = training_cycles t.
Proof. destruct t; repeat split. Qed.

(** The buffer after the first [k] cycles. *)
Lemma swa_prefix (t : Trainer) (w : World) (n : Net) (k : nat) :
  net t = Some n →
  ∃ t',
    for_each (py_range (Z.of_nat k)) save_running_weights (mkState t w)
    = (Ok tt, mkState t' w) ∧
    net t' = Some n ∧ training_cycles t' = training_cycles t ∧
    ∀ i, running_weights t' !! i =
         if decide (0 ≤ i ∧ 30 - training_cycles t ≤ i < 30 - training_cycles t + Z.of_nat k)
         then Some (params n) else running_weights t !! i.
Proof.
  intros Hnet. induction k as [|k IH].
  - exists t. split; [reflexivity|]. split; [exact Hnet|]. split; [reflexivity|].
    intros i. rewrite decide_False by lia. reflexivity.
  - destruct IH as (t1 & Hrun & Hnet1 & Htc1 & Hrw1).
    unfold py_range in *. rewrite seqZ_nat in *.
    rewrite seq_S, fmap_app, for_each_app, Hrun. cbn [fmap list_fmap Nat.add].
    rewrite for_each_cons, (save_running_weights_slot t1 w n _ Hnet1), Htc1.
    destruct (decide (training_cycles t - Z.of_nat k ≤ 30)) as [Hin|Hout].
    + eexists. split; [reflexivity|].
      pose proof (proj_set_running_weights
        (<[30 - (training_cycles t - Z.of_nat k) := params n]> (running_weights t1)) t1)
        as (-> & -> & ->).
      split; [exact Hnet1|]. split; [exact Htc1|].
      intros i. rewrite lookup_insert, Hrw1.
      repeat case_decide; try reflexivity; lia.
    + exists t1. split; [reflexivity|]. split; [exact Hnet1|]. split; [exact Htc1|].
      intros i. rewrite Hrw1. repeat case_decide; try reflexivity; lia.
Qed.

(** X12: calling [save_running_weights] on cycles 0, ..., C-1 of a run of [C]
    cycles, with a bound network, fills exactly the slots from
    max (0, 30 - C) to 29 with the network's snapshot and leaves every
    other slot of the buffer as it was, so a run shorter than 30 cycles
    leaves the low slots to whatever an earlier run stored there. *)
Theorem swa_buffer_after_run (t : Trainer) (w : World) (n : Net) :
  net t = Some n → 0 ≤ training_cycles t →
  ∃ t',
    for_each (py_range (training_cycles t)) save_running_weights (mkState t w)
    = (Ok tt, mkState t' w) ∧
    ∀ i, running_weights t' !! i =
         if decide (Z.max 0 (30 - training_cycles t) ≤ i < 30)
         then Some (params n) else running_weights t !! i.
Proof.
  intros Hnet HC.
  destruct (swa_prefix t w n (Z.to_nat (training_cycles t)) Hnet)
    as (t' & Hrun & _ & _ & Hrw).
  rewrite Z2Nat.id in Hrun, Hrw by exact HC.
  exists t'. split; [exact Hrun|]. intros i. rewrite Hrw.
  repeat case_decide; try reflexivity; lia.
Qed.

Lemma py_last_snoc {A} (l : list A) (x : A) : py_last (l ++ [x]) = Ok x.
Proof. unfold py_last. rewrite last_snoc. reflexivity. Qed.

(** X13: with [accuracy_metrics] set and accuracy reporting off,
    [print_statistics] prints one line with the 1-based cycle [e + 1], the
    cycle count and the last entries of the two loss lists rounded to 4
    places, and changes nothing else; with an empty loss list it raises
    [IndexError] and prints nothing. *)
Theorem print_statistics_history (t : Trainer) (w : World) (e : Z)
    (am : option string) :
  accuracy_metrics t = Some am →
  (∀ tl sl a b,
     compute_accuracy t = false →
     train_loss (loss_acc t) = (tl ++ [a])%list →
     test_loss (loss_acc t) = (sl ++ [b])%list →
     print_statistics e (mkState t w) =
     (Ok tt,
      mkState t
        (mkWorld (rng w)
           (log w ++ [EvPrintStats (e + 1) (training_cycles t)
                        (around a 4) (around b 4) None])
           (files w)))) ∧
  (train_loss (loss_acc t) = [] ∨ test_loss (loss_acc t) = [] →
   print_statistics e (mkState t w) = (Raise IndexError, mkState t w)).
Proof.
  intros Ham. split.
  - intros tl sl a b Hca Htl Hsl. unfold print_statistics. mrun. cbn [self world].
    rewrite Ham, Hca, Htl, Hsl, !py_last_snoc. reflexivity.
  - intros Hemp. unfold print_statistics. mrun. cbn [self world].
    rewrite Ham. unfold py_last.
    destruct Hemp as [Hl|Hl]; rewrite Hl;
      destruct (compute_accuracy t); cbn;
      try reflexivity; destruct (last (train_loss (loss_acc t))); reflexivity.
Qed.


(** X14: on an empty test partition (a loader over tensors without rows, or
    [X_test] of length 0) [eval_model] raises [ZeroDivisionError], for any
    class, after it has switched the network to evaluation mode and
    without printing. *)
Theorem eval_model_empty_partition (K : Klass) (t : Trainer) (w : World) (n : Net) :
  net t = Some n →
  (full_epoch t = true ∧ (∃ y, test_loader t = [[]; y])) ∨
  (full_epoch t = false ∧ ∃ X, X_test t = Some X ∧ len X = 0%nat) →
  eval_model K (mkState t w)
  = (Raise ZeroDivisionError,
     mkState (set_net (Some (mkNet (params n) false)) t) w).
Proof.
  intros Hnet Hmode. unfold eval_model. mrun. cbn [self world]. rewrite Hnet. mrun.
  cbn [self world].
  destruct Hmode as [(Hfull & y & Hl)|(Hfull & X & HX & Hlen)]; rewrite Hfull.
  - rewrite Hl. cbn. destruct w; reflexivity.
  - rewrite HX, Hlen. mrun. cbn. destruct w; reflexivity.
Qed.


Lemma keeps_bind {A C} (m : M A) (f : A → M C) :
  keeps m → (∀ x, keeps (f x)) → keeps (m ≫= f).
Proof.
  intros Hm Hf s r s'. unfold mbind, M_bind.
  destruct (m s) as [[x|e] s1] eqn:Hms.
  - intros Hfs. destruct (Hm _ _ _ Hms) as (H1 & H2 & H3).
    destruct (Hf x _ _ _ Hfs) as (H4 & H5 & H6). split; [|split]; congruence.
  - intros [= <- <-]. apply (Hm _ _ _ Hms).
Qed.

Lemma keeps_pure {A} (r0 : result A) : keeps (lift r0).
Proof. intros s r s' [= <- <-]. auto. Qed.

Lemma keeps_emit (ev : Event) : keeps (emit ev).
Proof. intros s r s' [= <- <-]. auto. Qed.

Lemma keeps_get_self : keeps get_self.
Proof. intros s r s' [= <- <-]. auto. Qed.

Lemma keeps_getattr {A} (o : option A) : keeps (getattr o).
Proof. destruct o; intros s r s' [= <- <-]; auto. Qed.

Lemma keeps_call_test_step (K : Klass) (f g : Item) : keeps (call_test_step K f g).
Proof.
  unfold call_test_step.
  apply keeps_bind; [apply keeps_getattr|]. intros ts.
  apply keeps_bind; [apply keeps_get_self|]. intros t.
  apply keeps_bind; [apply keeps_getattr|]. intros n.
  apply keeps_bind; [apply keeps_emit|]. intros _.
  intros s r s' [= <- <-]. auto.
Qed.

Lemma keeps_eval_loop {A} (K : Klass) (fetch : A → M (Item * Item))
    (xs : list A) (acc : F * F * Z) :
  (∀ x, keeps (fetch x)) → keeps (eval_loop K fetch xs acc).
Proof.
  intros Hfetch. revert acc. induction xs as [|x xs IH]; intros acc.
  - intros s r s' [= <- <-]. auto.
  - cbn [eval_loop]. apply keeps_bind; [apply Hfetch|]. intros [f g].
    apply keeps_bind; [apply keeps_call_test_step|]. intros loss_.
    apply keeps_bind; [apply keeps_get_self|]. intros t.
    destruct acc as [[rl ra] c]. apply IH.
Qed.

Lemma keeps_report (t : Trainer) (rl ra : F) (c : Z) :
  keeps (avg ← lift (py_div_count rl c);
         emit (EvPrintEvalLoss (around avg 4));;
         if compute_accuracy t then
           iou ← lift (py_div_count ra c);
           emit (EvPrintEvalIoU (around iou 4))
         else mret tt).
Proof.
  apply keeps_bind; [apply keeps_pure|]. intros avg.
  apply keeps_bind; [apply keeps_emit|]. intros _.
  destruct (compute_accuracy t).
  - apply keeps_bind; [apply keeps_pure|]. intros iou. apply keeps_emit.
  - intros s r s' [= <- <-]. auto.
Qed.

(** X15: whatever its outcome, [eval_model] changes nothing of the object but
    the mode flag of the network, which it sets to evaluation and never
    sets back, and leaves the generator and the files alone; without a
    network it raises [AttributeError] and changes nothing at all. *)
Theorem eval_model_only_sets_mode (K : Klass) (t : Trainer) (w : World)
    (r : result unit) (s' : State) :
  eval_model K (mkState t w) = (r, s') →
  match net t with
  | None => r = Raise AttributeError ∧ s' = mkState t w
  | Some n =>
      self s' = set_net (Some (mkNet (params n) false)) t ∧
      rng (world s') = rng w ∧ files (world s') = files w
  end.
Proof.
  unfold eval_model.
  destruct (net t) as [n|] eqn:Hnet.
  2: { mrun. cbn [self world]. rewrite Hnet. intros [= <- <-]. auto. }
  intros Hrun.
  assert (keeps (if full_epoch t then
    items ← lift (dataset_pairs (test_loader t));
    '(running_loss_test, running_acc_test, c) ← eval_loop K mret items (f_of_Z 0, f_of_Z 0, 0);
    avg ← lift (py_div_count running_loss_test c);
    emit (EvPrintEvalLoss (around avg 4));;
    if compute_accuracy t then
      iou ← lift (py_div_count running_acc_test c);
      emit (EvPrintEvalIoU (around iou 4))
    else mret tt
  else
    match X_test t with
    | None => raise TypeError
    | Some X =>
        '(running_loss_test, running_acc_test, _) ←
          eval_loop K
            (λ idx, t' ← get_self; lift (dataloader t' idx "test"))
            (py_range (Z.of_nat (len X))) (f_of_Z 0, f_of_Z 0, 0);
        avg ← lift (py_div_count running_loss_test (Z.of_nat (len X)));
        emit (EvPrintEvalLoss (around avg 4));;
        if compute_accuracy t then
          iou ← lift (py_div_count running_acc_test (Z.of_nat (len X)));
          emit (EvPrintEvalIoU (around iou 4))
        else mret tt
    end)) as Hkeeps.
  { destruct (full_epoch t).
    - apply keeps_bind; [apply keeps_pure|]. intros items.
      apply keeps_bind.
      + apply keeps_eval_loop. intros x s0 r0 s0' [= <- <-]. auto.
      + intros [[rl ra] c]. apply keeps_report.
    - destruct (X_test t) as [X|].
      + apply keeps_bind.
        * apply keeps_eval_loop. intros idx.
          apply keeps_bind; [apply keeps_get_self|]. intros t'. apply keeps_pure.
        * intros [[rl ra] c]. apply keeps_report.
      + intros s0 r0 s0' [= <- <-]. auto. }
  revert Hrun. unfold mbind at 1, M_bind at 1. unfold get_self at 1.
  unfold mbind at 1, M_bind at 1. cbn [self]. rewrite Hnet. cbn [getattr].
  unfold mret at 1, M_ret at 1.
  unfold mbind at 1, M_bind at 1. unfold modify_self at 1. cbn [self world].
  intros Hrun. apply Hkeeps in Hrun. exact Hrun.
Qed.



Lemma fit_outcome (K : Klass) (a : FitArgs) (s : State) :
  ∃ e,
    fit K a s =
    (Raise e,
     mkState (fit_configure a (self s))
       (mkWorld (SegResNet_init (rng (world s))).2
          (log (world s) ++
           match device (self s) with
           | cpu => [EvWarn "No GPU found. The training can be EXTREMELY slow"]
           | cuda => []
           end)
          (files (world s)))) ∧
    (e = TypeError ∨
     train_test_split (arg_X_train a) (arg_y_train a)
       (default (f_dec 15 (-2)) (kw_test_size a)) (default 1 (kw_seed a))
     = Raise e).
Proof.
  unfold fit. mrun. cbn [self world rng log files].
  destruct (SegResNet_init (rng (world s))) as [weights r'].
  cbn [self world rng log files snd].
  change (device (fit_configure a (self s))) with (device (self s)).
  destruct (device (self s));
    cbn [self world rng log files];
    destruct (arg_X_test a) as [xt|], (arg_y_test a) as [yt|];
    try (destruct (train_test_split _ _ _ _) as [[[[X1 X2] y1] y2]|x]);
    cbn [self world rng log files].
  all: rewrite ?app_nil_r.
  all: eexists; split; [reflexivity|]; auto.
Qed.

(** X16: what the failing [fit] leaves behind: the attributes as its opening
    assignments set them (so the loss history of an earlier run is
    cleared), the generator advanced by the construction of the network,
    no file, and on a CPU one call of [warnings.warn] with the no-GPU
    message (the statement is about the call, not about what the warning
    filters let through to the console). *)
Theorem fit_effects (K : Klass) (a : FitArgs) (s : State) :
  ∃ e s',
    fit K a s = (Raise e, s') ∧
    self s' = fit_configure a (self s) ∧
    rng (world s') = (SegResNet_init (rng (world s))).2 ∧
    files (world s') = files (world s) ∧
    log (world s') =
      (log (world s) ++
       match device (self s) with
       | cpu => [EvWarn "No GPU found. The training can be EXTREMELY slow"]
       | cuda => []
       end)%list.
Proof.
  destruct (fit_outcome K a s) as (e & Hrun & _).
  eexists e, _. split; [exact Hrun|]. auto.
Qed.

(** X5: [fit] never binds the data attributes: after construction and a
    call of [fit], [dataloader] raises [TypeError] for every index and
    mode. *)
Theorem dataloader_after_fit (K : Klass) (a : FitArgs) (s0 : State) (b : Z)
    (mode : string) :
  dataloader (self (fit K a (__init__ s0).2).2) b mode = Raise TypeError.
Proof.
  destruct (fit_outcome K a (__init__ s0).2) as (e & -> & _).
  cbn [snd self]. unfold dataloader. destruct (decide (mode = "test")); reflexivity.
Qed.

(** X17: the training loop of [fit] stops in its first round: with one
    cycle or more it raises [TypeError] at [self.step(e)] with the state
    untouched (no capture, no perturbation, no report); with none it does
    nothing. *)
Theorem training_loop_stops_at_first_step (K : Klass) (a : FitArgs)
    (pw : PerturbCfg) (plocal : option Z) (C : Z) (s : State) :
  for_each (py_range C) (fit_cycle K a pw plocal) s =
  if decide (1 ≤ C) then (Raise TypeError, s) else (Ok tt, s).
Proof.
  unfold py_range. destruct (decide (1 ≤ C)) as [HC|HC].
  - rewrite seqZ_cons by lia. reflexivity.
  - rewrite seqZ_nil by lia. reflexivity.
Qed.


(** ** Two runs *)

Lemma fit_configure_twice (a : FitArgs) (t : Trainer) :
  fit_configure a (fit_configure a t) = fit_configure a t.
Proof. reflexivity. Qed.


End Further.


(** * The statements at concrete inputs *)

Lemma select_loss_table_witness :
  select_loss (B := Z_backend) (LossToken "ce") (Some 3) = Ok CrossEntropyLoss ∧
  select_loss (B := Z_backend) (LossToken "bogus") (Some 3)
  = Raise NotImplementedError.
Proof.
  pose proof (select_loss_table (B := Z_backend) 3 (Some 3) "bogus" tt)
    as (_ & _ & Hk & _ & _ & Hs & _).
  split; [apply Hk; lia | apply Hs; discriminate].
Defined.

Lemma dataloader_one_sample_witness :
  (X_train demo_trainer = Some (mkArray Torch Float [[10; 11]; [20; 21]]) ∧
   y_train demo_trainer = Some (mkArray Torch Float [[0; 1]; [1; 0]])) ∧
  dataloader demo_trainer 1 "train" = Ok ([20], [1]).
Proof.
  split; [split; reflexivity|].
  exact (proj1 (dataloader_one_sample demo_trainer
                  (mkArray Torch Float [[10; 11]; [20; 21]])
                  (mkArray Torch Float [[0; 1]; [1; 0]])
                  1 "train" (conj eq_refl eq_refl))).
Defined.


(** C2 as stated fails: for a partition of 3 and 4 cycles, floor(4/3) = 1,
    yet index 2 occurs in the training schedule neither once nor twice but
    not at all. *)
Lemma schedule_coverage_counterexample :
  ∃ l,
    (build_schedules (B := Z_backend) 3 3 4 None
       (mkState demo_trainer demo_world)).1 = Ok tt ∧
    batch_idx_train
      (self (build_schedules (B := Z_backend) 3 3 4 None
               (mkState demo_trainer demo_world)).2) = NdArray l ∧
    length l = 4%nat ∧
    occurrences 2 l = 0%nat ∧
    4 `div` Z.of_nat 3 = 1.
Proof. exists [1; 1; 0; 0]. repeat split. Qed.

Lemma schedule_length_and_counts_witness :
  ∃ s' bt bs,
    build_schedules (B := Z_backend) 2 3 5 None (mkState demo_trainer demo_world)
    = (Ok tt, s') ∧
    batch_idx_train (self s') = NdArray bt ∧
    batch_idx_test (self s') = NdArray bs ∧
    schedule_shape 2 5 bt ∧
    schedule_shape 3 5 bs.
Proof. apply schedule_length_and_counts; lia. Defined.



Lemma perturbation_flag_raises_witness :
  arg_perturb_weights demo_fit_args = PW_bool true ∧
  weight_perturbation 49 (mkState (fit_configure demo_fit_args demo_trainer) demo_world)
  = (Raise TypeError, mkState (fit_configure demo_fit_args demo_trainer) demo_world).
Proof.
  split; [reflexivity|].
  apply (perturbation_flag_raises demo_fit_args demo_trainer demo_world 49 eq_refl).
Defined.

Lemma swa_capture_unbound_net_witness :
  arg_training_cycles demo_fit_args = 100 ∧
  save_running_weights 70 (mkState (fit_configure demo_fit_args fresh_trainer) demo_world)
  = (Raise AttributeError,
     mkState (fit_configure demo_fit_args fresh_trainer) demo_world).
Proof.
  split; [reflexivity|].
  apply (proj1 (proj2 (swa_capture_unbound_net demo_fit_args demo_world 70 eq_refl))).
  lia.
Defined.


(** The whole of [fit] on the integer backend. *)
Example fit_demo_raises :
  (fit Trainer_class demo_fit_args (mkState fresh_trainer demo_world)).1
  = Raise TypeError.
Proof. reflexivity. Qed.

(** On cycle 49 the dict path draws one noise tensor per parameter. *)
Example perturbation_demo :
  log (world (weight_perturbation 49 (mkState demo_trainer demo_world)).2)
  = [EvNormal 0; EvNormal 1].
Proof. reflexivity. Qed.

(** On cycle -1 the power is 0 and the quotient raises before a draw. *)
Example perturbation_zero_power_demo :
  weight_perturbation (-1) (mkState demo_trainer demo_world)
  = (Raise ZeroDivisionError, mkState demo_trainer demo_world).
Proof. reflexivity. Qed.

(** ** The further properties at concrete inputs *)

Lemma preprocess_ok_inv_witness :
  preprocess_training_image_data (B := Z_backend)
    (VArray (mkArray NumPy Native [[10]; [20]]))
    (VArray (mkArray NumPy Native [[0]; [1]]))
    (VArray (mkArray NumPy Native [[30]]))
    (VArray (mkArray NumPy Native [[1]]))
  = Ok (mkArray Torch Float [[10]; [20]], mkArray Torch Float [[0]; [1]],
        mkArray Torch Float [[30]], mkArray Torch Float [[1]], 1) ∧
  ∃ X L XT LT rep,
    VArray (mkArray NumPy Native [[10]; [20]]) = VArray X ∧
    VArray (mkArray NumPy Native [[0]; [1]]) = VArray L ∧
    VArray (mkArray NumPy Native [[30]]) = VArray XT ∧
    VArray (mkArray NumPy Native [[1]]) = VArray LT ∧
    a_repr X = rep ∧ a_repr L = rep ∧ a_repr XT = rep ∧ a_repr LT = rep ∧
    num_classes_from_labels (Backend := Z_backend) L = Ok 1 ∧
    a_dtype (mkArray Torch Float [[10]; [20]]) = Float ∧
    a_dtype (mkArray Torch Float [[30]]) = Float ∧
    a_dtype (mkArray Torch Float [[0]; [1]]) = (if Z.ltb 1 1 then Long else Float) ∧
    a_dtype (mkArray Torch Float [[1]]) = (if Z.ltb 1 1 then Long else Float) ∧
    (rep = NumPy →
     a_repr (mkArray Torch Float [[10]; [20]]) = Torch ∧
     a_repr (mkArray Torch Float [[0]; [1]]) = Torch ∧
     a_repr (mkArray Torch Float [[30]]) = Torch ∧
     a_repr (mkArray Torch Float [[1]]) = Torch).
Proof.
  split; [reflexivity|].
  apply (preprocess_ok_inv (B := Z_backend)). reflexivity.
Defined.

Lemma dataloader_index_bounds_witness :
  dataloader demo_trainer (-1) "test" = dataloader demo_trainer 2 "test" ∧
  dataloader demo_trainer 3 "test" = Raise IndexError.
Proof.
  pose proof (dataloader_index_bounds demo_trainer
                (mkArray Torch Float [[30]; [40]; [50]])
                (mkArray Torch Float [[1]; [0]; [1]])) as H.
  split.
  - apply (proj2 (proj2 (H (-1) "test" (conj eq_refl eq_refl) eq_refl ltac:(lia)))).
    cbn. lia.
  - apply (proj1 (proj2 (H 3 "test" (conj eq_refl eq_refl) eq_refl ltac:(lia)))).
    cbn. lia.
Defined.

(** With a batch size of 1, the first plane of the sample and of the label. *)
Lemma dataloader_batch_size_bound_witness :
  dataloader demo_trainer 1 "train" = Ok ([20], [1]) ∧
  [20] = take 1 [20; 21] ∧ [1] = take 1 [1; 0] ∧
  [20] ≠ drop 1 [20; 21].
Proof.
  split; [reflexivity|].
  destruct (dataloader_batch_size_bound demo_trainer
              (mkArray Torch Float [[10; 11]; [20; 21]])
              (mkArray Torch Float [[0; 1]; [1; 0]])
              1 "train" [20] [1] (conj eq_refl eq_refl) eq_refl)
    as (x & ys & Hx & Hy & Hpos & _).
  vm_compute in Hx, Hy. injection Hx as <-. injection Hy as <-.
  destruct Hpos as (Hf & Ht & _); [cbn; lia|].
  split; [exact Hf|]. split; [exact Ht|]. discriminate.
Defined.

Lemma unshuffled_schedule_edges_witness :
  unshuffled_schedule 3 (-5) = Raise ValueError ∧
  unshuffled_schedule 3 (-2) = Ok [].
Proof.
  pose proof (unshuffled_schedule_edges 3 (-5)) as (_ & H1 & _).
  pose proof (unshuffled_schedule_edges 3 (-2)) as (_ & _ & H2).
  split; [apply H1; lia|apply H2; lia].
Defined.

Lemma schedule_short_run_prefix_witness :
  ∃ s' bt,
    build_schedules (B := Z_backend) 5 3 2 None (mkState demo_trainer demo_world)
    = (Ok tt, s') ∧
    batch_idx_train (self s') = NdArray bt ∧
    bt ≡ₚ seqZ 0 2.
Proof. apply schedule_short_run_prefix; lia. Defined.

Lemma build_schedules_partial_update_witness :
  ∃ s',
    build_schedules (B := Z_backend) 2 0 3 None (mkState demo_trainer demo_world)
    = (Raise ZeroDivisionError, s') ∧
    batch_idx_train (self s') =
      NdArray (take (Z.to_nat 3) (blocks (Z.to_nat (3 `div` Z.of_nat 2 + 1)) 0 2)) ∧
    batch_idx_test (self s') = NdArray [2; 2; 1; 0; 0] ∧
    world s' = demo_world.
Proof.
  apply (build_schedules_partial_update (B := Z_backend) 2 3 None
           (mkState demo_trainer demo_world)); lia.
Defined.

Lemma weight_perturbation_adds_noise_witness :
  ∃ s',
    weight_perturbation 49 (mkState demo_trainer demo_world) = (Ok tt, s') ∧
    net (self s') = Some (mkNet (B := Z_backend) [("w", 5 + 0); ("b", 7 + 1)] true).
Proof.
  assert (NoDup (params (mkNet (B := Z_backend) [("w", 5); ("b", 7)] true)).*1) as Hnd.
  { apply (bool_decide_unpack _). reflexivity. }
  destruct (weight_perturbation_adds_noise (B := Z_backend) 1 2 50 49
              (mkNet (B := Z_backend) [("w", 5); ("b", 7)] true)
              (mkState demo_trainer demo_world) eq_refl eq_refl Hnd
              ltac:(lia) eq_refl)
    as (Hok & _).
  destruct (Hok 2500 0 [0; 1] 2 eq_refl eq_refl eq_refl) as (s' & Hrun & Hnet & _).
  exists s'. split; [exact Hrun|exact Hnet].
Defined.


Lemma swa_buffer_after_run_witness :
  ∃ t',
    for_each (py_range 5) save_running_weights (mkState demo_trainer demo_world)
    = (Ok tt, mkState t' demo_world) ∧
    ∀ i, running_weights t' !! i =
         if decide (Z.max 0 (30 - 5) ≤ i < 30)
         then Some [("w", 5); ("b", 7)] else (∅ : gmap Z (list (string * Z))) !! i.
Proof.
  apply (swa_buffer_after_run (B := Z_backend) demo_trainer demo_world
           (mkNet (B := Z_backend) [("w", 5); ("b", 7)] true) eq_refl).
  cbn. lia.
Defined.

Lemma print_statistics_history_witness :
  print_statistics 2 (mkState demo_history_trainer demo_world) =
  (Ok tt,
   mkState demo_history_trainer
     (mkWorld (B := Z_backend) 0 [EvPrintStats 3 8 4 6 None] ∅)).
Proof.
  apply (proj1 (print_statistics_history (B := Z_backend) demo_history_trainer
                  demo_world 2 None eq_refl) [9] [8] 4 6 eq_refl eq_refl eq_refl).
Defined.

Lemma eval_model_empty_partition_witness :
  eval_model Trainer_class (mkState demo_history_trainer demo_world)
  = (Raise ZeroDivisionError,
     mkState (set_net (Some (mkNet (B := Z_backend) [("w", 5); ("b", 7)] false))
                demo_history_trainer) demo_world).
Proof.
  apply (eval_model_empty_partition (B := Z_backend) Trainer_class
           demo_history_trainer demo_world
           (mkNet (B := Z_backend) [("w", 5); ("b", 7)] true) eq_refl).
  right. split; [reflexivity|]. exists (mkArray Torch Float []). split; reflexivity.
Defined.

Lemma eval_model_only_sets_mode_witness :
  self (eval_model demo_class (mkState demo_trainer demo_world)).2
  = set_net (Some (mkNet (B := Z_backend) [("w", 5); ("b", 7)] false)) demo_trainer.
Proof.
  destruct (eval_model demo_class (mkState demo_trainer demo_world)) as [r s'] eqn:Hrun.
  exact (proj1 (eval_model_only_sets_mode (B := Z_backend) demo_class demo_trainer
                  demo_world r s' Hrun)).
Defined.
